(** * DailyBook front end: the session store and the API gateway client

    A shallow embedding of [src/lib/api.ts]: the three local-storage
    helpers ([getStoredToken], [setStoredToken], [clearStoredToken]), the
    header builder [getHeaders], the fetch wrapper [apiCall] and the two
    follow wrappers, followed by the properties the specification states
    about them.

    JavaScript values are modelled as follows.
    - A string is a Rocq [string]; [undefined] and [null] are [None].
    - A [Record<string, string>] (the headers object, [localStorage]) is a
      [gmap string string].
    - A JSON-serialisable value is a [JSON] tree; an object is the list of
      its fields in property order (the order of [Object.keys], which is
      insertion order for keys that are not array indices), the order
      [JSON.stringify] prints them in.
    - Code that reads the environment, talks to the network or may throw
      runs in the monad [JS]: a state transformer over [World] whose result
      is a [Completion] (a value, or a thrown value). *)

From Stdlib Require Import ZArith NArith Ascii String List Bool Lia.
From Stdlib Require Import DecimalString DecimalNat DecimalN DecimalZ.
From stdpp Require Import base option gmap strings list fin_maps.

Import ListNotations.
Local Open Scope string_scope.
Local Open Scope list_scope.

(** ** JavaScript strings and truthiness *)

Module Js.

(** [a || b] and [if (a)] on a [string | null | undefined]: the empty
    string, [null] and [undefined] are falsy, every other string is truthy. *)
Definition truthy (v : option string) : bool :=
  match v with
  | Some s => negb (String.eqb s "")
  | None => false
  end.

(** [a || b] where both sides are [string | null | undefined]. *)
Definition or_else (a b : option string) : option string :=
  if truthy a then a else b.

(** [a || d] where [d] is a string: the result is always a string. *)
Definition or_default (a : option string) (d : string) : string :=
  match a with
  | Some s => if truthy a then s else d
  | None => d
  end.

(** [hay.includes(needle)]: [needle] occurs in [hay] as a contiguous,
    case-sensitive substring. *)
Fixpoint includes (needle hay : string) : bool :=
  String.prefix needle hay
  || match hay with
     | EmptyString => false
     | String _ rest => includes needle rest
     end.

(** [n.toString()] / template interpolation of an integral number. *)
Definition N_toString (n : N) : string :=
  NilEmpty.string_of_uint (N.to_uint n).

Definition Z_toString (z : Z) : string :=
  NilZero.string_of_int (Z.to_int z).

End Js.

(** ** JSON values and [JSON.stringify] *)

(** The JSON-serialisable values a request body is built from.  Numbers are
    integers (page numbers, counts, epoch milliseconds), printed in plain
    decimal as JavaScript prints integers below 10^21 in magnitude. *)
#[warnings="-register-all"]
Inductive JSON : Type :=
  | JNull
  | JBool (b : bool)
  | JNumber (n : Z)
  | JString (s : string)
  | JArray (items : list JSON)
  | JObject (fields : list (string * JSON)).

Module Stringify.

Definition hex_digit (n : N) : ascii :=
  match n with
  | 0 => "0" | 1 => "1" | 2 => "2" | 3 => "3" | 4 => "4" | 5 => "5"
  | 6 => "6" | 7 => "7" | 8 => "8" | 9 => "9" | 10 => "a" | 11 => "b"
  | 12 => "c" | 13 => "d" | 14 => "e" | _ => "f"
  end%N%char.

(** QuoteJSONString on one code unit: the two-character escapes, [\u00xx]
    for the remaining control characters, the character itself otherwise. *)
Definition quote_char (c : ascii) : list ascii :=
  let n := N_of_ascii c in
  if N.eqb n 34 then ["\"; "034"]%char
  else if N.eqb n 92 then ["\"; "\"]%char
  else if N.eqb n 8 then ["\"; "b"]%char
  else if N.eqb n 9 then ["\"; "t"]%char
  else if N.eqb n 10 then ["\"; "n"]%char
  else if N.eqb n 12 then ["\"; "f"]%char
  else if N.eqb n 13 then ["\"; "r"]%char
  else if N.ltb n 32 then
    ["\"; "u"; "0"; "0"; hex_digit (n / 16); hex_digit (n mod 16)]%char
  else [c].

Definition quote_string (s : string) : list ascii :=
  ("034"%char :: flat_map quote_char (list_ascii_of_string s)) ++ ["034"%char].

Definition number_chars (n : Z) : list ascii :=
  list_ascii_of_string (Js.Z_toString n).

(** [parts] separated by [sep]. *)
Fixpoint join (sep : ascii) (parts : list (list ascii)) : list ascii :=
  match parts with
  | [] => []
  | p :: rest =>
      match rest with
      | [] => p
      | _ :: _ => p ++ sep :: join sep rest
      end
  end.

(** SerializeJSONProperty without indentation: no white space, fields in
    insertion order, elements separated by a comma. *)
Fixpoint chars (v : JSON) : list ascii :=
  match v with
  | JNull => list_ascii_of_string "null"
  | JBool true => list_ascii_of_string "true"
  | JBool false => list_ascii_of_string "false"
  | JNumber n => number_chars n
  | JString s => quote_string s
  | JArray items => "["%char :: join ","%char (map chars items) ++ ["]"%char]
  | JObject fields =>
      "{"%char
        :: join ","%char
             (map (fun kv : string * JSON =>
                     let (k, x) := kv in quote_string k ++ ":"%char :: chars x)
                  fields)
        ++ ["}"%char]
  end.

(** The text of one object member, and the digits of a decimal numeral. *)
Definition field_chars (kv : string * JSON) : list ascii :=
  let (k, x) := kv in quote_string k ++ ":"%char :: chars x.

Definition digits (d : Decimal.uint) : list ascii :=
  list_ascii_of_string (NilEmpty.string_of_uint d).

End Stringify.

Definition JSON_stringify (v : JSON) : string :=
  string_of_list_ascii (Stringify.chars v).

(** ** [JSON.parse] *)

(** A reader for JSON text over the [JSON] tree: the grammar of RFC 8259
    with numbers limited to integer literals in canonical form (no
    fraction, no exponent, no ["-0"]), and [\u] escapes limited to code
    units below 256.  [None] stands for a text this reader does not cover,
    be it malformed or outside that fragment. *)
Module Parse.

Definition is_ws (c : ascii) : bool :=
  let n := N_of_ascii c in
  N.eqb n 32 || N.eqb n 9 || N.eqb n 10 || N.eqb n 13.

Fixpoint skip_ws (l : list ascii) : list ascii :=
  match l with
  | [] => []
  | c :: rest => if is_ws c then skip_ws rest else l
  end.

Definition is_digit (c : ascii) : bool :=
  let n := N_of_ascii c in (48 <=? n)%N && (n <=? 57)%N.

Definition hex_value (c : ascii) : option N :=
  let n := N_of_ascii c in
  if (48 <=? n)%N && (n <=? 57)%N then Some (n - 48)%N
  else if (97 <=? n)%N && (n <=? 102)%N then Some (n - 87)%N
  else if (65 <=? n)%N && (n <=? 70)%N then Some (n - 55)%N
  else None.

(** The character a two-character escape stands for. *)
Definition unescape (c : ascii) : option ascii :=
  let n := N_of_ascii c in
  if N.eqb n 34 then Some (ascii_of_N 34)
  else if N.eqb n 92 then Some (ascii_of_N 92)
  else if N.eqb n 47 then Some (ascii_of_N 47)
  else if N.eqb n 98 then Some (ascii_of_N 8)
  else if N.eqb n 102 then Some (ascii_of_N 12)
  else if N.eqb n 110 then Some (ascii_of_N 10)
  else if N.eqb n 114 then Some (ascii_of_N 13)
  else if N.eqb n 116 then Some (ascii_of_N 9)
  else None.

Definition cons_char (c : ascii) (r : option (string * list ascii))
    : option (string * list ascii) :=
  match r with
  | Some (s, rest) => Some (String c s, rest)
  | None => None
  end.

(** The inside of a string literal, up to and including the closing
    quote. *)
Fixpoint string_body (l : list ascii) : option (string * list ascii) :=
  match l with
  | [] => None
  | c :: rest =>
      let n := N_of_ascii c in
      if N.eqb n 34 then Some (EmptyString, rest)
      else if N.eqb n 92 then
        match rest with
        | [] => None
        | e :: rest1 =>
            if N.eqb (N_of_ascii e) 117 then
              match rest1 with
              | h1 :: h2 :: h3 :: h4 :: rest2 =>
                  match hex_value h1, hex_value h2, hex_value h3, hex_value h4 with
                  | Some a, Some b, Some c3, Some d =>
                      let code := (((a * 16 + b) * 16 + c3) * 16 + d)%N in
                      if (code <? 256)%N
                      then cons_char (ascii_of_N code) (string_body rest2)
                      else None
                  | _, _, _, _ => None
                  end
              | _ => None
              end
            else
              match unescape e with
              | Some d => cons_char d (string_body rest1)
              | None => None
              end
        end
      else if (n <? 32)%N then None
      else cons_char c (string_body rest)
  end.

Fixpoint span_digits (l : list ascii) : list ascii * list ascii :=
  match l with
  | [] => ([], [])
  | c :: rest =>
      if is_digit c
      then let (ds, r) := span_digits rest in (c :: ds, r)
      else ([], l)
  end.

(** A fraction or an exponent follows: a number outside the integers. *)
Definition continues_number (l : list ascii) : bool :=
  match l with
  | [] => false
  | c :: _ =>
      let n := N_of_ascii c in N.eqb n 46 || N.eqb n 101 || N.eqb n 69
  end.

Definition number (l : list ascii) : option (Z * list ascii) :=
  let (sign, l1) :=
    match l with
    | c :: rest => if N.eqb (N_of_ascii c) 45 then ([c], rest) else ([], l)
    | [] => ([], l)
    end in
  let (ds, rest) := span_digits l1 in
  let literal := string_of_list_ascii (sign ++ ds) in
  if continues_number rest then None
  else
    match NilZero.int_of_string literal with
    | Some d =>
        let z := Z.of_int d in
        if String.eqb (Js.Z_toString z) literal then Some (z, rest) else None
    | None => None
    end.

Fixpoint strip_prefix (p l : list ascii) : option (list ascii) :=
  match p, l with
  | [], _ => Some l
  | _ :: _, [] => None
  | a :: p', b :: l' => if Ascii.eqb a b then strip_prefix p' l' else None
  end.

Definition keyword (word : string) (v : JSON) (l : list ascii)
    : option (JSON * list ascii) :=
  match strip_prefix (list_ascii_of_string word) l with
  | Some rest => Some (v, rest)
  | None => None
  end.

Fixpoint value (fuel : nat) (l : list ascii) : option (JSON * list ascii) :=
  match fuel with
  | O => None
  | S fuel' =>
      match skip_ws l with
      | [] => None
      | c :: rest =>
          let n := N_of_ascii c in
          if N.eqb n 110 then keyword "null" JNull (c :: rest)
          else if N.eqb n 116 then keyword "true" (JBool true) (c :: rest)
          else if N.eqb n 102 then keyword "false" (JBool false) (c :: rest)
          else if N.eqb n 34 then
            match string_body rest with
            | Some (s, rest') => Some (JString s, rest')
            | None => None
            end
          else if N.eqb n 91 then
            match skip_ws rest with
            | [] => None
            | c' :: rest' =>
                if N.eqb (N_of_ascii c') 93 then Some (JArray [], rest')
                else
                  match elements fuel' rest with
                  | Some (items, rest'') => Some (JArray items, rest'')
                  | None => None
                  end
            end
          else if N.eqb n 123 then
            match skip_ws rest with
            | [] => None
            | c' :: rest' =>
                if N.eqb (N_of_ascii c') 125 then Some (JObject [], rest')
                else
                  match members fuel' rest with
                  | Some (fields, rest'') => Some (JObject fields, rest'')
                  | None => None
                  end
            end
          else
            match number (c :: rest) with
            | Some (z, rest') => Some (JNumber z, rest')
            | None => None
            end
      end
  end

with elements (fuel : nat) (l : list ascii)
    : option (list JSON * list ascii) :=
  match fuel with
  | O => None
  | S fuel' =>
      match value fuel' l with
      | None => None
      | Some (v, rest) =>
          match skip_ws rest with
          | [] => None
          | c :: rest' =>
              let n := N_of_ascii c in
              if N.eqb n 93 then Some ([v], rest')
              else if N.eqb n 44 then
                match elements fuel' rest' with
                | Some (vs, rest'') => Some (v :: vs, rest'')
                | None => None
                end
              else None
          end
      end
  end

with members (fuel : nat) (l : list ascii)
    : option (list (string * JSON) * list ascii) :=
  match fuel with
  | O => None
  | S fuel' =>
      match skip_ws l with
      | [] => None
      | q :: rest =>
          if negb (N.eqb (N_of_ascii q) 34) then None
          else
            match string_body rest with
            | None => None
            | Some (k, rest1) =>
                match skip_ws rest1 with
                | [] => None
                | colon :: rest2 =>
                    if negb (N.eqb (N_of_ascii colon) 58) then None
                    else
                      match value fuel' rest2 with
                      | None => None
                      | Some (v, rest3) =>
                          match skip_ws rest3 with
                          | [] => None
                          | c :: rest4 =>
                              let n := N_of_ascii c in
                              if N.eqb n 125 then Some ([(k, v)], rest4)
                              else if N.eqb n 44 then
                                match members fuel' rest4 with
                                | Some (fs, rest5) => Some ((k, v) :: fs, rest5)
                                | None => None
                                end
                              else None
                          end
                      end
                end
            end
      end
  end.

(** The characters that may follow a value inside an array or an object,
    and the lists that start with one of them or are empty. *)
Definition delimiter (c : ascii) : bool :=
  let n := N_of_ascii c in N.eqb n 44 || N.eqb n 93 || N.eqb n 125.

Definition delimited (l : list ascii) : bool :=
  match l with
  | [] => true
  | c :: _ => delimiter c
  end.

(** The characters a JSON value can begin with. *)
Definition starts_value (c : ascii) : bool :=
  let n := N_of_ascii c in
  N.eqb n 110 || N.eqb n 116 || N.eqb n 102 || N.eqb n 34 || N.eqb n 91
  || N.eqb n 123 || N.eqb n 45 || is_digit c.

End Parse.

(** The fuel that suffices to read a value back: one unit per node and
    one per array element or object field. *)
Fixpoint size (v : JSON) : nat :=
  match v with
  | JArray items => S (list_sum (map (fun x => S (size x)) items))
  | JObject fields => S (list_sum (map (fun kv => S (size (snd kv))) fields))
  | _ => 1
  end.

(** What makes a value readable: with enough fuel and a delimiter (or the
    end of input) behind it, [value] returns it and stops right there. *)
Definition readable (v : JSON) : Prop :=
  forall fuel rest,
    size v <= fuel -> Parse.delimited rest = true ->
    Parse.value fuel (Stringify.chars v ++ rest) = Some (v, rest).

(** [JSON.parse(text)], on the texts the reader covers. *)
Definition JSON_parse (text : string) : option JSON :=
  let l := list_ascii_of_string text in
  match Parse.value (S (List.length l)) l with
  | Some (v, rest) =>
      match Parse.skip_ws rest with
      | [] => Some v
      | _ :: _ => None
      end
  | None => None
  end.

(** ** Requests, responses and the world the client runs in *)

Inductive Method : Type := GET | POST | PUT | DELETE.

(** The [RequestInit] object handed to [fetch]. *)
Record RequestInit : Type := mkRequestInit {
  method : Method;
  headers : gmap string string;
  body : option string
}.

(** What a [catch] clause can receive: an [Error] instance with its
    [message], or any other thrown value. *)
Inductive Thrown : Type :=
  | ThrownError (message : string)
  | ThrownValue (v : JSON).

Inductive Completion (A : Type) : Type :=
  | Normal (a : A)
  | Throw (e : Thrown).
Arguments Normal {A} a.
Arguments Throw {A} e.

(** A [Response] as [apiCall] observes it: the status, the header list
    (names in lower case, as [Headers.get] normalises them) and the outcome
    of awaiting [text()] and [json()]. *)
Record Response : Type := mkResponse {
  status : N;
  response_headers : gmap string string;
  text : Completion string;
  json : Completion JSON
}.

(** [response.ok]: the status is in the range 200-299. *)
Definition ok (r : Response) : bool :=
  (200 <=? status r)%N && (status r <=? 299)%N.

Definition Headers_get (name : string) (r : Response) : option string :=
  response_headers r !! name.

(** [ApiResponse<T>]: [{ data?: T; error?: string }]. *)
Record ApiResponse : Type := mkApiResponse {
  data : option JSON;
  error : option string
}.

(** The ambient state: whether [window] exists, the content of
    [localStorage], the build-time environment variable, the wall clock
    ([Date.now()], which [api.ts] never reads) and the calls made to
    [fetch] so far, oldest first. *)
Record World : Type := mkWorld {
  window_defined : bool;
  localStorage : gmap string string;
  NEXT_PUBLIC_API_BASE : option string;
  now : Z;
  fetch_calls : list (string * RequestInit)
}.

Definition with_localStorage (f : gmap string string -> gmap string string)
    (w : World) : World :=
  {| window_defined := window_defined w;
     localStorage := f (localStorage w);
     NEXT_PUBLIC_API_BASE := NEXT_PUBLIC_API_BASE w;
     now := now w;
     fetch_calls := fetch_calls w |}.

Definition with_fetch_call (call : string * RequestInit) (w : World) : World :=
  {| window_defined := window_defined w;
     localStorage := localStorage w;
     NEXT_PUBLIC_API_BASE := NEXT_PUBLIC_API_BASE w;
     now := now w;
     fetch_calls := fetch_calls w ++ [call] |}.

Definition with_now (t : Z) (w : World) : World :=
  {| window_defined := window_defined w;
     localStorage := localStorage w;
     NEXT_PUBLIC_API_BASE := NEXT_PUBLIC_API_BASE w;
     now := t;
     fetch_calls := fetch_calls w |}.

(** ** The monad of effectful JavaScript code *)

Definition JS (A : Type) : Type := World -> World * Completion A.

Definition ret {A} (a : A) : JS A := fun w => (w, Normal a).

Definition bind {A B} (m : JS A) (k : A -> JS B) : JS B :=
  fun w =>
    match m w with
    | (w', Normal a) => k a w'
    | (w', Throw e) => (w', Throw e)
    end.

(** [try { m } catch (err) { h err }] *)
Definition try_catch {A} (m : JS A) (h : Thrown -> JS A) : JS A :=
  fun w =>
    match m w with
    | (w', Normal a) => (w', Normal a)
    | (w', Throw e) => h e w'
    end.

(** [await p] for a promise that is already settled. *)
Definition await {A} (c : Completion A) : JS A := fun w => (w, c).

Definition read {A} (f : World -> A) : JS A := fun w => (w, Normal (f w)).

Definition modify (f : World -> World) : JS unit := fun w => (f w, Normal tt).

Declare Scope js_scope.
Delimit Scope js_scope with js.
Notation "'do' x <- m ; k" := (bind m (fun x => k))
  (at level 10, x name, m at level 100, k at level 200) : js_scope.

(** ** [src/lib/api.ts] *)

Module LocalStorage.

Definition getItem (key : string) : JS (option string) :=
  read (fun w => localStorage w !! key).

Definition setItem (key value : string) : JS unit :=
  modify (with_localStorage (insert key value)).

Definition removeItem (key : string) : JS unit :=
  modify (with_localStorage (delete key)).

End LocalStorage.

(** [typeof window === "undefined"] *)
Definition window_undefined : JS bool :=
  read (fun w => negb (window_defined w)).

(** [const API_BASE = process.env.NEXT_PUBLIC_API_BASE || "http://localhost:8080"],
    a constant of the environment the module is loaded in. *)
Definition API_BASE (w : World) : string :=
  Js.or_default (NEXT_PUBLIC_API_BASE w) "http://localhost:8080".

Definition getStoredToken : JS (option string) :=
  (do no_window <- window_undefined;
   if no_window : bool then ret None
   else LocalStorage.getItem "auth_token")%js.

Definition setStoredToken (token : string) (expiresAt : Z) : JS unit :=
  (do no_window <- window_undefined;
   if no_window : bool then ret tt
   else
     do _ <- LocalStorage.setItem "auth_token" token;
     LocalStorage.setItem "auth_expires" (Js.Z_toString expiresAt))%js.

Definition clearStoredToken : JS unit :=
  (do no_window <- window_undefined;
   if no_window : bool then ret tt
   else
     do _ <- LocalStorage.removeItem "auth_token";
     LocalStorage.removeItem "auth_expires")%js.

Definition getHeaders (token : option string) : JS (gmap string string) :=
  (let headers : gmap string string := {[ "Content-Type" := "application/json" ]} in
   do authToken <- (if Js.truthy token then ret token else getStoredToken);
   if Js.truthy authToken then
     match authToken with
     | Some t => ret (<[ "Authorization" := "Bearer " +:+ t ]> headers)
     | None => ret headers
     end
   else ret headers)%js.

Section Client.

(** The remote end: what awaiting [fetch(url, options)] settles to.  A
    rejected promise (network failure) is a [Throw]. *)
Variable network : string -> RequestInit -> Completion Response.

Definition fetch (url : string) (options : RequestInit) : JS Response :=
  fun w => (with_fetch_call (url, options) w, network url options).

(** Lines 54-67: what [apiCall] makes of the response once [fetch] has
    resolved. *)
Definition normalize (response : Response) : JS ApiResponse :=
  (if negb (ok response) then
     do text <- await (text response);
     ret {| data := None;
            error := Some (Js.or_default (Some text)
                             ("API error: " +:+ Js.N_toString (status response))) |}
   else
     let contentType := Headers_get "content-type" response in
     if match contentType with
        | Some ct => Js.includes "application/json" ct
        | None => false
        end
     then
       do data <- await (json response);
       ret {| data := Some data; error := None |}
     else
       do text <- await (text response);
       ret {| data := Some (JString text); error := None |})%js.

(** The body of the [try] block of [apiCall].  [if (body)] holds for every
    object, the empty one included, so the payload is set exactly when a
    body is passed.  The default [method = "GET"] is left to the callers,
    which all pass the method. *)
Definition apiCall_try (endpoint : string) (method : Method)
    (body : option (list (string * JSON))) (token : option string)
    : JS ApiResponse :=
  (do headers <- getHeaders token;
   let options :=
     {| method := method;
        headers := headers;
        body := match body with
                | Some b => Some (JSON_stringify (JObject b))
                | None => None
                end |} in
   do base <- read API_BASE;
   do response <- fetch (base +:+ endpoint) options;
   normalize response)%js.

(** The [catch] clause of [apiCall]. *)
Definition apiCall_catch (err : Thrown) : JS ApiResponse :=
  ret {| data := None;
         error := Some match err with
                       | ThrownError message => message
                       | ThrownValue _ => "Unknown error"
                       end |}.

Definition apiCall (endpoint : string) (method : Method)
    (body : option (list (string * JSON))) (token : option string)
    : JS ApiResponse :=
  try_catch (apiCall_try endpoint method body token) apiCall_catch.

(** *** Follow APIs *)

Definition sendFollowRequest (username : string) : JS ApiResponse :=
  apiCall ("/api/follow/" +:+ username) POST (Some []) None.

Definition unfollow (username : string) : JS ApiResponse :=
  apiCall ("/api/follow/" +:+ username) DELETE None None.

End Client.

(** ** Sample worlds *)

(** A browser tab with empty storage and no configured base URL. *)
Definition browser : World :=
  {| window_defined := true;
     localStorage := ∅;
     NEXT_PUBLIC_API_BASE := None;
     now := 0;
     fetch_calls := [] |}.

(** Server-side rendering: no [window], hence no [localStorage]. *)
Definition server_side : World :=
  {| window_defined := false;
     localStorage := ∅;
     NEXT_PUBLIC_API_BASE := None;
     now := 0;
     fetch_calls := [] |}.

(** A network on which every [fetch] rejects. *)
Definition offline (message : string)
    : string -> RequestInit -> Completion Response :=
  fun _ _ => Throw (ThrownError message).

(** A network that answers every request with the same response. *)
Definition answering (r : Response)
    : string -> RequestInit -> Completion Response :=
  fun _ _ => Normal r.

(** JSON text written with apostrophes where the double quotes go. *)
Definition json_text (s : string) : string :=
  string_of_list_ascii
    (map (fun c : ascii => if Ascii.eqb c "'" then "034"%char else c)
         (list_ascii_of_string s)).

(** A response whose body is [body]: [text()] yields it, [json()] yields
    what the reader makes of it, or [otherwise] for a body the reader does
    not cover. *)
Definition http_response (status : N) (headers : gmap string string)
    (body : string) (otherwise : Completion JSON) : Response :=
  {| status := status;
     response_headers := headers;
     text := Normal body;
     json := match JSON_parse body with
             | Some v => Normal v
             | None => otherwise
             end |}.

(** ** Vocabulary of the statements *)

(** What [getStoredToken] reads in a world: nothing without a [window],
    the ["auth_token"] entry otherwise. *)
Definition stored_token (w : World) : option string :=
  if window_defined w then localStorage w !! "auth_token" else None.

(** An absent value or the empty string: the falsy cases of
    [string | null | undefined]. *)
Definition absent_or_empty (v : option string) : Prop :=
  v = None \/ v = Some "".

Ltac js_unfold :=
  unfold getStoredToken, setStoredToken, clearStoredToken, window_undefined,
    LocalStorage.getItem, LocalStorage.setItem,
    LocalStorage.removeItem, bind, ret, read, modify, await, try_catch in *.

(** ** [encodeURIComponent] *)

(** Percent-encoding as [encodeURIComponent] does it, for strings of code
    units below 256: the unreserved characters stay, every other character
    becomes the [%XX] escapes of its UTF-8 bytes (one byte below 128, two
    from 128 on). *)
Module Uri.

Definition unreserved (c : ascii) : bool :=
  let n := N_of_ascii c in
  ((48 <=? n)%N && (n <=? 57)%N)
  || ((65 <=? n)%N && (n <=? 90)%N)
  || ((97 <=? n)%N && (n <=? 122)%N)
  || N.eqb n 45 || N.eqb n 95 || N.eqb n 46 || N.eqb n 33 || N.eqb n 126
  || N.eqb n 42 || N.eqb n 39 || N.eqb n 40 || N.eqb n 41.

Definition HEX (n : N) : ascii :=
  match n with
  | 0 => "0" | 1 => "1" | 2 => "2" | 3 => "3" | 4 => "4" | 5 => "5"
  | 6 => "6" | 7 => "7" | 8 => "8" | 9 => "9" | 10 => "A" | 11 => "B"
  | 12 => "C" | 13 => "D" | 14 => "E" | _ => "F"
  end%N%char.

Definition percent (byte : N) : list ascii :=
  ["%"%char; HEX (byte / 16); HEX (byte mod 16)].

Definition encode_char (c : ascii) : list ascii :=
  let n := N_of_ascii c in
  if unreserved c then [c]
  else if (n <? 128)%N then percent n
  else percent (192 + n / 64) ++ percent (128 + n mod 64).

Definition encodeURIComponent (s : string) : string :=
  string_of_list_ascii (flat_map encode_char (list_ascii_of_string s)).







End Uri.

(** ** The domain wrappers of [src/lib/api.ts] *)

Inductive Visibility : Type := PUBLIC | PRIVATE | FOLLOWERS_ONLY.

Definition Visibility_string (v : Visibility) : string :=
  match v with
  | PUBLIC => "PUBLIC"
  | PRIVATE => "PRIVATE"
  | FOLLOWERS_ONLY => "FOLLOWERS_ONLY"
  end.

(** A parameter with a default value: [undefined] takes the default. *)
Definition defaulting {A : Type} (d : A) (v : option A) : A :=
  match v with
  | Some a => a
  | None => d
  end.


Section Wrappers.

Variable network : string -> RequestInit -> Completion Response.

(** *** Auth APIs *)


Definition login (username password : string) : JS ApiResponse :=
  apiCall network "/api/auth/login" POST
    (Some [("username", JString username); ("password", JString password)])
    None.

(** *** Entry APIs *)

Definition createEntry (title content : string) (tags : list string)
    (visibility : Visibility) (imageUrls : option (list string))
    : JS ApiResponse :=
  apiCall network "/api/entries" POST
    (Some [("title", JString title); ("content", JString content);
           ("tags", JArray (map JString tags));
           ("visibility", JString (Visibility_string visibility));
           ("imageUrls", JArray (map JString (defaulting [] imageUrls)))])
    None.



Definition deleteEntry (id : string) : JS ApiResponse :=
  apiCall network ("/api/entries/" +:+ id) DELETE None None.





(** *** Follow APIs, continued *)




Definition approveFollowRequest (username : string) : JS ApiResponse :=
  apiCall network ("/api/follow/approve/" +:+ username) POST (Some []) None.

Definition rejectFollowRequest (username : string) : JS ApiResponse :=
  apiCall network ("/api/follow/reject/" +:+ username) DELETE None None.

(** *** Notifications APIs *)



Definition markNotificationAsRead (id : string) : JS ApiResponse :=
  apiCall network ("/api/notifications/" +:+ id +:+ "/read") POST (Some [])
    None.

Definition markAllNotificationsAsRead : JS ApiResponse :=
  apiCall network "/api/notifications/read-all" POST (Some []) None.

(** *** User profile APIs *)


Definition updateMyProfile (bio profilePicture : string) : JS ApiResponse :=
  apiCall network "/api/profile/me" PUT
    (Some [("bio", JString bio); ("profilePicture", JString profilePicture)])
    None.

Definition getUserProfile (username : string) : JS ApiResponse :=
  apiCall network ("/api/profile/" +:+ username) GET None None.

Definition searchUsers (query : string) : JS ApiResponse :=
  apiCall network
    ("/api/profile/search?query=" +:+ Uri.encodeURIComponent query)
    GET None None.


(** *** The catalogue *)



End Wrappers.

(** ** The pages *)

(** An event handler of a page component is modelled as a function from the
    component state it closes over to the state after all its updates,
    running in [JS] over the same world as [src/lib/api.ts]; one handler
    runs at a time.  Beside the [useState] fields a handler reads or
    writes, a page state records what the handler sends outside the
    component: the routes pushed on the router, the texts passed to
    [alert], and the labels passed to [console.error], each oldest
    first. *)

(** *** The home page: [handleLogout] *)

Module HomePage.

(** The state [handleLogout] writes, and the routes pushed on the router,
    oldest first. *)
Record State : Type := mkState {
  isAuthenticated : bool;
  pushed : list string
}.

(** [handleLogout] reaches for [localStorage] directly; it is attached to a
    button and so runs in a browser only. *)
Definition handleLogout (page : State) : JS State :=
  (do _ <- LocalStorage.removeItem "auth_token";
   do _ <- LocalStorage.removeItem "auth_expires";
   ret {| isAuthenticated := false;
          pushed := pushed page ++ ["/login"] |})%js.

End HomePage.

(** ** String and array methods the pages use *)

Module JsString.

(** The white space and line terminators [trim] strips, among code units
    below 256: TAB, LF, VT, FF, CR, SPACE and NBSP. *)
Definition is_space (c : ascii) : bool :=
  let n := N_of_ascii c in
  ((9 <=? n)%N && (n <=? 13)%N) || N.eqb n 32 || N.eqb n 160.

Fixpoint trimStart_chars (l : list ascii) : list ascii :=
  match l with
  | [] => []
  | c :: rest => if is_space c then trimStart_chars rest else l
  end.

Fixpoint trimEnd_chars (l : list ascii) : list ascii :=
  match l with
  | [] => []
  | c :: rest =>
      match trimEnd_chars rest with
      | [] => if is_space c then [] else [c]
      | kept => c :: kept
      end
  end.

(** [s.trim()] *)
Definition trim (s : string) : string :=
  string_of_list_ascii
    (trimStart_chars (trimEnd_chars (list_ascii_of_string s))).

(** The pieces of [l] between occurrences of [sep]; never an empty list. *)
Fixpoint split_chars (sep : ascii) (l : list ascii) : list (list ascii) :=
  match l with
  | [] => [[]]
  | c :: rest =>
      if Ascii.eqb c sep then [] :: split_chars sep rest
      else
        match split_chars sep rest with
        | piece :: pieces => (c :: piece) :: pieces
        | [] => [[c]]
        end
  end.

(** [s.split(sep)] for a one-character separator. *)
Definition split (sep : ascii) (s : string) : list string :=
  map string_of_list_ascii (split_chars sep (list_ascii_of_string s)).

(** [Boolean(s)] for a string. *)
Definition nonempty (s : string) : bool := negb (String.eqb s "").

(** [parts.join(sep)] for a one-character separator. *)
Fixpoint join (sep : ascii) (parts : list string) : string :=
  match parts with
  | [] => ""
  | p :: rest =>
      match rest with
      | [] => p
      | _ :: _ => p +:+ String sep (join sep rest)
      end
  end.

End JsString.

(** [l.filter((x, i) => keep(i, x))], counting indices from [start]. *)
Fixpoint filter_indexed {A : Type} (keep : nat -> A -> bool) (start : nat)
    (l : list A) : list A :=
  match l with
  | [] => []
  | x :: rest =>
      if keep start x then x :: filter_indexed keep (S start) rest
      else filter_indexed keep (S start) rest
  end.

(** ** The write page *)

Module WritePage.

(** The component state the two handlers read and write, the routes pushed
    on the router and the lines sent to [console.error]. *)
Record State : Type := mkState {
  title : string;
  content : string;
  tags : string;
  visibility : Visibility;
  uploadedImages : list string;
  loading : bool;
  shown_error : string;
  pushed : list string;
  console_errors : list string
}.

Definition set_error (message : string) (page : State) : State :=
  {| title := title page; content := content page; tags := tags page;
     visibility := visibility page; uploadedImages := uploadedImages page;
     loading := loading page; shown_error := message;
     pushed := pushed page; console_errors := console_errors page |}.

Definition set_loading (flag : bool) (page : State) : State :=
  {| title := title page; content := content page; tags := tags page;
     visibility := visibility page; uploadedImages := uploadedImages page;
     loading := flag; shown_error := shown_error page;
     pushed := pushed page; console_errors := console_errors page |}.

Definition set_uploadedImages (images : list string) (page : State) : State :=
  {| title := title page; content := content page; tags := tags page;
     visibility := visibility page; uploadedImages := images;
     loading := loading page; shown_error := shown_error page;
     pushed := pushed page; console_errors := console_errors page |}.

Definition router_push (route : string) (page : State) : State :=
  {| title := title page; content := content page; tags := tags page;
     visibility := visibility page; uploadedImages := uploadedImages page;
     loading := loading page; shown_error := shown_error page;
     pushed := pushed page ++ [route];
     console_errors := console_errors page |}.

Definition console_error (line : string) (page : State) : State :=
  {| title := title page; content := content page; tags := tags page;
     visibility := visibility page; uploadedImages := uploadedImages page;
     loading := loading page; shown_error := shown_error page;
     pushed := pushed page;
     console_errors := console_errors page ++ [line] |}.

(** [tags.split(",").map((t) => t.trim()).filter(Boolean)] *)
Definition tagList (tags : string) : list string :=
  List.filter JsString.nonempty
    (map JsString.trim (JsString.split ","%char tags)).

(** A tag as the server should get it: not empty, no comma inside, no
    white space at either end. *)
Definition clean_tag (t : string) : bool :=
  match list_ascii_of_string t with
  | [] => false
  | c :: rest =>
      negb (JsString.is_space c)
      && negb (JsString.is_space (List.last rest c))
      && forallb (fun x => negb (Ascii.eqb x ","%char)) (c :: rest)
  end.

(** [removeImage]: [prev.filter((_, i) => i !== index)] *)
Definition removeImage (index : nat) (page : State) : State :=
  set_uploadedImages
    (filter_indexed (fun i _ => negb (Nat.eqb i index)) 0
       (uploadedImages page))
    page.

Section Handlers.

Variable network : string -> RequestInit -> Completion Response.

Definition handlePublish (page : State) : JS State :=
  (do token <- getStoredToken;
   if negb (Js.truthy token) then ret (router_push "/login" page)
   else if negb (JsString.nonempty (JsString.trim (title page)))
           || negb (JsString.nonempty (JsString.trim (content page)))
   then ret (set_error "Title and content are required" page)
   else
     let page := set_loading true (set_error "" page) in
     do page <-
       try_catch
         (do res <- createEntry network (title page) (content page)
                      (tagList (tags page)) (visibility page)
                      (Some (uploadedImages page));
          if Js.truthy (error res)
          then ret (set_error (Js.or_default (error res) "") page)
          else ret (router_push "/feed" page))
         (fun err =>
            ret (set_error
                   match err with
                   | ThrownError message => message
                   | ThrownValue _ => "Failed to publish"
                   end
                   (console_error "Publish error:" page)));
     ret (set_loading false page))%js.

End Handlers.

End WritePage.

(** ** Records the pages keep *)

Module Entry.
Record t : Type := mk {
  id : string;
  title : string;
  content : string;
  tags : list string;
  visibility : Visibility;
  createdAt : string
}.
End Entry.

Module UserProfile.
Record t : Type := mk {
  username : string;
  email : string;
  bio : string;
  profilePicture : string
}.
End UserProfile.

Inductive NotificationType : Type := FOLLOW_REQUEST | FOLLOW_APPROVED.

Module Notification.
Record t : Type := mk {
  id : string;
  recipientUsername : string;
  actorUsername : string;
  type : NotificationType;
  message : string;
  read : bool;
  createdAt : string
}.

(** [{ ...n, read: true }] *)
Definition mark_read (n : t) : t :=
  {| id := id n; recipientUsername := recipientUsername n;
     actorUsername := actorUsername n; type := type n;
     message := message n; read := true; createdAt := createdAt n |}.
End Notification.

(** [list.filter((u) => u !== name)] on strings. *)
Definition without (name : string) (l : list string) : list string :=
  List.filter (fun u => negb (String.eqb u name)) l.

(** ** The followers page *)

Module FollowersPage.

Record State : Type := mkState {
  followers : list string;
  following : list string;
  pending : list string;
  console_errors : list string
}.

Section Handlers.

Variable network : string -> RequestInit -> Completion Response.

Definition handleUnfollow (username : string) (page : State) : JS State :=
  try_catch
    (do _ <- unfollow network username;
     ret {| followers := followers page;
            following := without username (following page);
            pending := pending page;
            console_errors := console_errors page |})%js
    (fun _ =>
       ret {| followers := followers page;
              following := following page;
              pending := pending page;
              console_errors := console_errors page ++ ["Failed to unfollow:"] |}).

Definition handleApprove (username : string) (page : State) : JS State :=
  try_catch
    (do _ <- approveFollowRequest network username;
     ret {| followers := followers page ++ [username];
            following := following page;
            pending := without username (pending page);
            console_errors := console_errors page |})%js
    (fun _ =>
       ret {| followers := followers page;
              following := following page;
              pending := pending page;
              console_errors := console_errors page ++ ["Failed to approve:"] |}).

Definition handleReject (username : string) (page : State) : JS State :=
  try_catch
    (do _ <- rejectFollowRequest network username;
     ret {| followers := followers page;
            following := following page;
            pending := without username (pending page);
            console_errors := console_errors page |})%js
    (fun _ =>
       ret {| followers := followers page;
              following := following page;
              pending := pending page;
              console_errors := console_errors page ++ ["Failed to reject:"] |}).

End Handlers.

End FollowersPage.

(** ** The notifications page *)

Module NotificationsPage.

Record State : Type := mkState {
  notifications : list Notification.t;
  unreadCount : Z;
  console_errors : list string
}.

Section Handlers.

Variable network : string -> RequestInit -> Completion Response.

Definition handleMarkAsRead (id : string) (page : State) : JS State :=
  try_catch
    (do _ <- markNotificationAsRead network id;
     ret {| notifications :=
              map (fun n => if String.eqb (Notification.id n) id
                            then Notification.mark_read n else n)
                  (notifications page);
            unreadCount := Z.max 0 (unreadCount page - 1);
            console_errors := console_errors page |})%js
    (fun _ =>
       ret {| notifications := notifications page;
              unreadCount := unreadCount page;
              console_errors :=
                console_errors page ++ ["Failed to mark as read:"] |}).

Definition handleMarkAllAsRead (page : State) : JS State :=
  try_catch
    (do _ <- markAllNotificationsAsRead network;
     ret {| notifications := map Notification.mark_read (notifications page);
            unreadCount := 0;
            console_errors := console_errors page |})%js
    (fun _ =>
       ret {| notifications := notifications page;
              unreadCount := unreadCount page;
              console_errors :=
                console_errors page ++ ["Failed to mark all as read:"] |}).

End Handlers.

End NotificationsPage.

(** ** The my-posts page *)

Module MyPostsPage.

Record State : Type := mkState {
  entries : list Entry.t;
  alerts : list string
}.

Section Handlers.

Variable network : string -> RequestInit -> Completion Response.

(** [confirmed] is what the user answers to the [confirm] dialog. *)
Definition handleDelete (confirmed : bool) (id : string) (page : State)
    : JS State :=
  if negb confirmed then ret page
  else
    try_catch
      (do _ <- deleteEntry network id;
       ret {| entries :=
                List.filter (fun e => negb (String.eqb (Entry.id e) id))
                  (entries page);
              alerts := alerts page |})%js
      (fun err =>
         ret {| entries := entries page;
                alerts := alerts page
                          ++ [match err with
                              | ThrownError message => message
                              | ThrownValue _ => "Failed to delete post"
                              end] |}).

End Handlers.

End MyPostsPage.

(** ** The profile page *)

Module ProfilePage.

Record State : Type := mkState {
  profile : option UserProfile.t;
  followers : list string;
  following : list string;
  myPosts : list Entry.t;
  editBio : string;
  photoPreview : string;
  isSaving : bool;
  unfollowingUser : option string;
  removingFollower : option string;
  deletingPostId : option string;
  alerts : list string;
  console_errors : list string
}.

Definition set_profile (p : option UserProfile.t) (page : State) : State :=
  {| profile := p; followers := followers page; following := following page;
     myPosts := myPosts page; editBio := editBio page;
     photoPreview := photoPreview page; isSaving := isSaving page;
     unfollowingUser := unfollowingUser page;
     removingFollower := removingFollower page;
     deletingPostId := deletingPostId page; alerts := alerts page;
     console_errors := console_errors page |}.

Definition set_followers (l : list string) (page : State) : State :=
  {| profile := profile page; followers := l; following := following page;
     myPosts := myPosts page; editBio := editBio page;
     photoPreview := photoPreview page; isSaving := isSaving page;
     unfollowingUser := unfollowingUser page;
     removingFollower := removingFollower page;
     deletingPostId := deletingPostId page; alerts := alerts page;
     console_errors := console_errors page |}.

Definition set_following (l : list string) (page : State) : State :=
  {| profile := profile page; followers := followers page; following := l;
     myPosts := myPosts page; editBio := editBio page;
     photoPreview := photoPreview page; isSaving := isSaving page;
     unfollowingUser := unfollowingUser page;
     removingFollower := removingFollower page;
     deletingPostId := deletingPostId page; alerts := alerts page;
     console_errors := console_errors page |}.

Definition set_isSaving (b : bool) (page : State) : State :=
  {| profile := profile page; followers := followers page;
     following := following page; myPosts := myPosts page;
     editBio := editBio page; photoPreview := photoPreview page;
     isSaving := b; unfollowingUser := unfollowingUser page;
     removingFollower := removingFollower page;
     deletingPostId := deletingPostId page; alerts := alerts page;
     console_errors := console_errors page |}.

Definition set_unfollowingUser (u : option string) (page : State) : State :=
  {| profile := profile page; followers := followers page;
     following := following page; myPosts := myPosts page;
     editBio := editBio page; photoPreview := photoPreview page;
     isSaving := isSaving page; unfollowingUser := u;
     removingFollower := removingFollower page;
     deletingPostId := deletingPostId page; alerts := alerts page;
     console_errors := console_errors page |}.

Definition set_removingFollower (u : option string) (page : State) : State :=
  {| profile := profile page; followers := followers page;
     following := following page; myPosts := myPosts page;
     editBio := editBio page; photoPreview := photoPreview page;
     isSaving := isSaving page; unfollowingUser := unfollowingUser page;
     removingFollower := u;
     deletingPostId := deletingPostId page; alerts := alerts page;
     console_errors := console_errors page |}.

Definition alert (text : string) (page : State) : State :=
  {| profile := profile page; followers := followers page;
     following := following page; myPosts := myPosts page;
     editBio := editBio page; photoPreview := photoPreview page;
     isSaving := isSaving page; unfollowingUser := unfollowingUser page;
     removingFollower := removingFollower page;
     deletingPostId := deletingPostId page; alerts := alerts page ++ [text];
     console_errors := console_errors page |}.

Definition console_error (line : string) (page : State) : State :=
  {| profile := profile page; followers := followers page;
     following := following page; myPosts := myPosts page;
     editBio := editBio page; photoPreview := photoPreview page;
     isSaving := isSaving page; unfollowingUser := unfollowingUser page;
     removingFollower := removingFollower page;
     deletingPostId := deletingPostId page; alerts := alerts page;
     console_errors := console_errors page ++ [line] |}.

Section Handlers.

Variable network : string -> RequestInit -> Completion Response.

Definition handleSaveProfile (page : State) : JS State :=
  match profile page with
  | None => ret page
  | Some p =>
      let picture :=
        Js.or_default (Some (photoPreview page)) (UserProfile.profilePicture p) in
      let page := set_isSaving true page in
      (do page <-
         try_catch
           (do _ <- updateMyProfile network (editBio page) picture;
            ret (alert "Profile updated successfully!"
                   (set_profile
                      (Some {| UserProfile.username := UserProfile.username p;
                               UserProfile.email := UserProfile.email p;
                               UserProfile.bio := editBio page;
                               UserProfile.profilePicture := picture |})
                      page)))
           (fun _ =>
              ret (alert "Failed to save profile"
                     (console_error "Failed to save profile:" page)));
       ret (set_isSaving false page))%js
  end.

Definition handleUnfollow (username : string) (page : State) : JS State :=
  let page := set_unfollowingUser (Some username) page in
  (do page <-
     try_catch
       (do _ <- unfollow network username;
        ret (set_following (without username (following page)) page))
       (fun _ => ret (console_error "Failed to unfollow:" page));
   ret (set_unfollowingUser None page))%js.

Definition handleRemoveFollower (username : string) (page : State)
    : JS State :=
  let page := set_removingFollower (Some username) page in
  (do page <-
     try_catch
       (do _ <- unfollow network username;
        ret (set_followers (without username (followers page)) page))
       (fun _ => ret (console_error "Failed to remove follower:" page));
   ret (set_removingFollower None page))%js.

End Handlers.

End ProfilePage.

(** ** The author page *)

Module AuthorPage.

(** [username] is the route parameter [params.username]. *)
Record State : Type := mkState {
  username : option string;
  isFollowing : bool;
  currentUsername : option string;
  shown_error : option string;
  pushed : list string;
  alerts : list string;
  console_errors : list string
}.

Definition set_isFollowing (b : bool) (page : State) : State :=
  {| username := username page; isFollowing := b;
     currentUsername := currentUsername page;
     shown_error := shown_error page; pushed := pushed page;
     alerts := alerts page; console_errors := console_errors page |}.

Section Handlers.

Variable network : string -> RequestInit -> Completion Response.

Definition handleFollowToggle (page : State) : JS State :=
  (do token <- getStoredToken;
   if negb (Js.truthy token) then
     ret {| username := username page; isFollowing := isFollowing page;
            currentUsername := currentUsername page;
            shown_error := shown_error page;
            pushed := pushed page ++ ["/login"];
            alerts := alerts page; console_errors := console_errors page |}
   else
     match username page with
     | None => ret page
     | Some name =>
         if negb (Js.truthy (Some name)) then ret page
         else if Js.truthy (currentUsername page)
                 && match currentUsername page with
                    | Some me => String.eqb me name
                    | None => false
                    end
         then
           ret {| username := username page; isFollowing := isFollowing page;
                  currentUsername := currentUsername page;
                  shown_error := shown_error page; pushed := pushed page;
                  alerts := alerts page ++ ["You cannot follow yourself"];
                  console_errors := console_errors page |}
         else
           try_catch
             (if isFollowing page then
                do _ <- unfollow network name;
                ret (set_isFollowing false page)
              else
                do _ <- sendFollowRequest network name;
                ret (set_isFollowing true page))
             (fun _ =>
                ret {| username := username page;
                       isFollowing := isFollowing page;
                       currentUsername := currentUsername page;
                       shown_error := Some "Failed to update follow status";
                       pushed := pushed page; alerts := alerts page;
                       console_errors :=
                         console_errors page ++ ["Failed to toggle follow:"] |})
     end)%js.

End Handlers.

End AuthorPage.

(** ** JSON values handled as JavaScript values *)

(** What the login page does with the [data] it gets is untyped at run
    time: the cast [data as { token: string; expiresAt: number }] checks
    nothing.  These are the conversions JavaScript applies to a value that
    came out of [JSON.parse] (or a response text). *)
Module JsValue.

(** The places where the engine raises a [TypeError]; the text of its
    message is the engine's. *)
Inductive TypeErrorSite : Type :=
  | NullishReceiver     (* a property or method of [undefined] or [null] *)
  | NotCallable         (* calling a property that is not a function *)
  | NotPrimitive.       (* an object that converts to no primitive *)

(** [!!v], with [None] for [undefined]. *)
Definition truthy (v : option JSON) : bool :=
  match v with
  | None => false
  | Some JNull => false
  | Some (JBool b) => b
  | Some (JNumber n) => negb (Z.eqb n 0)
  | Some (JString s) => negb (String.eqb s "")
  | Some (JArray _) => true
  | Some (JObject _) => true
  end.

(** The own property [key] of an object, the last binding winning as in
    [JSON.parse]. *)
Fixpoint own_property (key : string) (fields : list (string * JSON))
    : option JSON :=
  match fields with
  | [] => None
  | (k, x) :: rest =>
      match own_property key rest with
      | Some later => Some later
      | None => if String.eqb k key then Some x else None
      end
  end.

Section Conversions.

Variable type_error : TypeErrorSite -> string.

(** [v.key] for a [key] that no built-in prototype defines (["token"],
    ["expiresAt"]): the own property of an object, [undefined] on any
    other value, a [TypeError] on [undefined] and [null]. *)
Definition get (key : string) (v : option JSON) : Completion (option JSON) :=
  match v with
  | None => Throw (ThrownError (type_error NullishReceiver))
  | Some JNull => Throw (ThrownError (type_error NullishReceiver))
  | Some (JObject fields) => Normal (own_property key fields)
  | Some _ => Normal None
  end.

(** The elements of an array joined by commas, [None] if one of them does
    not convert. *)
Fixpoint join_converted (parts : list (option string)) : option string :=
  match parts with
  | [] => Some ""
  | p :: rest =>
      match p, rest with
      | None, _ => None
      | Some s, [] => Some s
      | Some s, _ :: _ =>
          match join_converted rest with
          | Some tail => Some (s +:+ "," +:+ tail)
          | None => None
          end
      end
  end.

(** ToString on a JSON value; [None] when the conversion raises a
    [TypeError]: an object with an own (hence non-callable) [toString]
    property converts to no primitive. *)
Fixpoint ToString (v : JSON) : option string :=
  match v with
  | JNull => Some "null"
  | JBool true => Some "true"
  | JBool false => Some "false"
  | JNumber n => Some (Js.Z_toString n)
  | JString s => Some s
  | JArray items =>
      join_converted
        (map (fun x => match x with
                       | JNull => Some ""
                       | _ => ToString x
                       end) items)
  | JObject fields =>
      match own_property "toString" fields with
      | Some _ => None
      | None => Some "[object Object]"
      end
  end.

(** The conversion of an argument to a DOM string, as
    [localStorage.setItem] applies it. *)
Definition to_DOMString (v : option JSON) : Completion string :=
  match v with
  | None => Normal "undefined"
  | Some x =>
      match ToString x with
      | Some s => Normal s
      | None => Throw (ThrownError (type_error NotPrimitive))
      end
  end.

(** [v.toString()] *)
Definition toString_method (v : option JSON) : Completion string :=
  match v with
  | None => Throw (ThrownError (type_error NullishReceiver))
  | Some JNull => Throw (ThrownError (type_error NullishReceiver))
  | Some (JObject fields) =>
      match own_property "toString" fields with
      | Some _ => Throw (ThrownError (type_error NotCallable))
      | None => Normal "[object Object]"
      end
  | Some x =>
      match ToString x with
      | Some s => Normal s
      | None => Throw (ThrownError (type_error NotPrimitive))
      end
  end.

End Conversions.

End JsValue.

(** ** The login page *)

Module LoginPage.

Record State : Type := mkState {
  username : string;
  password : string;
  shown_error : string;
  loading : bool;
  pushed : list string
}.

Definition set_error (message : string) (page : State) : State :=
  {| username := username page; password := password page;
     shown_error := message; loading := loading page;
     pushed := pushed page |}.

Definition set_loading (flag : bool) (page : State) : State :=
  {| username := username page; password := password page;
     shown_error := shown_error page; loading := flag;
     pushed := pushed page |}.

Definition router_push (route : string) (page : State) : State :=
  {| username := username page; password := password page;
     shown_error := shown_error page; loading := loading page;
     pushed := pushed page ++ [route] |}.

Section Handlers.

Variable type_error : JsValue.TypeErrorSite -> string.
Variable network : string -> RequestInit -> Completion Response.

(** [setStoredToken] as it runs on arguments of any run-time type. *)
Definition setStoredToken_untyped (token expiresAt : option JSON) : JS unit :=
  (do no_window <- window_undefined;
   if no_window : bool then ret tt
   else
     do t <- await (JsValue.to_DOMString type_error token);
     do _ <- LocalStorage.setItem "auth_token" t;
     do e <- await (JsValue.toString_method type_error expiresAt);
     LocalStorage.setItem "auth_expires" e)%js.

Definition handleSubmit (page : State) : JS State :=
  let page := set_loading true (set_error "" page) in
  (do page <-
     try_catch
       (do res <- login network (username page) (password page);
        if Js.truthy (error res) || negb (JsValue.truthy (data res))
        then ret (set_error (Js.or_default (error res) "Login failed") page)
        else
          do token <- await (JsValue.get type_error "token" (data res));
          do expiresAt <- await (JsValue.get type_error "expiresAt" (data res));
          do _ <- setStoredToken_untyped token expiresAt;
          ret (router_push "/feed" page))
       (fun err =>
          ret (set_error
                 match err with
                 | ThrownError message => message
                 | ThrownValue _ => "An error occurred"
                 end
                 page));
   ret (set_loading false page))%js.

End Handlers.

End LoginPage.

(** ** Sample pages *)

Definition sample_profile_page : ProfilePage.State :=
  {| ProfilePage.profile :=
       Some {| UserProfile.username := "alice";
               UserProfile.email := "a@example.org";
               UserProfile.bio := "old";
               UserProfile.profilePicture := "old.png" |};
     ProfilePage.followers := ["bob"]; ProfilePage.following := ["carol"];
     ProfilePage.myPosts := []; ProfilePage.editBio := "new bio";
     ProfilePage.photoPreview := ""; ProfilePage.isSaving := false;
     ProfilePage.unfollowingUser := None;
     ProfilePage.removingFollower := None;
     ProfilePage.deletingPostId := None; ProfilePage.alerts := [];
     ProfilePage.console_errors := [] |}.

(** * Properties *)

(** ** Reading back what [JSON.stringify] wrote *)

Module RoundTrip.
Import Stringify Parse.

(** Induction over [JSON] with the hypothesis available for every element
    of an array and every field of an object. *)
Lemma JSON_nested_ind (P : JSON -> Prop) :
  P JNull ->
  (forall b, P (JBool b)) ->
  (forall n, P (JNumber n)) ->
  (forall s, P (JString s)) ->
  (forall items, Forall P items -> P (JArray items)) ->
  (forall fields, Forall (fun kv => P (snd kv)) fields -> P (JObject fields)) ->
  forall v, P v.
Proof.
  intros Hnull Hbool Hnum Hstr Harr Hobj.
  fix IH 1. intros [ | b | n | s | items | fields ].
  - exact Hnull.
  - apply Hbool.
  - apply Hnum.
  - apply Hstr.
  - apply Harr. induction items as [|x xs IHxs]; constructor; [apply IH | exact IHxs].
  - apply Hobj. induction fields as [|[k x] fs IHfs]; constructor;
      [apply IH | exact IHfs].
Qed.

(** *** Strings *)

Lemma string_body_quote_char (c : ascii) (l : list ascii) :
  string_body (quote_char c ++ l) = cons_char c (string_body l).
Proof.
  destruct c as [[] [] [] [] [] [] [] []]; reflexivity.
Qed.

Lemma string_body_quoted (cs rest : list ascii) :
  string_body (flat_map quote_char cs ++ "034"%char :: rest)
  = Some (string_of_list_ascii cs, rest).
Proof.
  induction cs as [|c cs IH].
  - reflexivity.
  - cbn [flat_map]. rewrite <- app_assoc, string_body_quote_char, IH.
    reflexivity.
Qed.

Lemma quote_string_app (s : string) (rest : list ascii) :
  quote_string s ++ rest
  = "034"%char :: flat_map quote_char (list_ascii_of_string s)
      ++ "034"%char :: rest.
Proof. unfold quote_string. cbn [app]. rewrite <- app_assoc. reflexivity. Qed.

Lemma string_body_quote_string (s : string) (rest : list ascii) :
  exists tl, quote_string s ++ rest = "034"%char :: tl /\
             string_body tl = Some (s, rest).
Proof.
  eexists. split; [apply quote_string_app|].
  rewrite string_body_quoted, string_of_list_ascii_of_string. reflexivity.
Qed.


(** *** Numbers *)

Lemma delimiter_not_digit (c : ascii) :
  delimiter c = true -> is_digit c = false.
Proof.
  destruct c as [[] [] [] [] [] [] [] []]; try discriminate; reflexivity.
Qed.

Lemma delimited_continues (rest : list ascii) :
  delimited rest = true -> continues_number rest = false.
Proof.
  destruct rest as [|c rest]; [reflexivity|]. cbn [delimited continues_number].
  destruct c as [[] [] [] [] [] [] [] []]; try discriminate; reflexivity.
Qed.

Lemma span_digits_digits (d : Decimal.uint) (rest : list ascii) :
  delimited rest = true ->
  span_digits (digits d ++ rest) = (digits d, rest).
Proof.
  intros Hrest. unfold digits.
  induction d as [ |d IH|d IH|d IH|d IH|d IH|d IH|d IH|d IH|d IH|d IH];
    cbn [NilEmpty.string_of_uint list_ascii_of_string app span_digits];
    try (change (is_digit _) with true; cbv iota; rewrite IH; reflexivity).
  destruct rest as [|c rest]; [reflexivity|].
  cbn [span_digits]. rewrite (delimiter_not_digit c Hrest). reflexivity.
Qed.

Lemma number_unsigned (d : Decimal.uint) (rest : list ascii) :
  d <> Decimal.Nil -> delimited rest = true ->
  number (digits d ++ rest) =
    let literal := NilEmpty.string_of_uint d in
    match NilZero.int_of_string literal with
    | Some i =>
        if String.eqb (Js.Z_toString (Z.of_int i)) literal
        then Some (Z.of_int i, rest) else None
    | None => None
    end.
Proof.
  intros Hd Hrest. unfold number.
  replace (match digits d ++ rest with
           | [] => ([], digits d ++ rest)
           | c :: rest0 =>
               if N.eqb (N_of_ascii c) 45 then ([c], rest0)
               else ([], digits d ++ rest)
           end) with (@nil ascii, digits d ++ rest)
    by (destruct d; first [contradiction | reflexivity]).
  rewrite (span_digits_digits d rest Hrest), (delimited_continues rest Hrest).
  cbn [app]. unfold digits. rewrite string_of_list_ascii_of_string.
  reflexivity.
Qed.

Lemma number_negative (d : Decimal.uint) (rest : list ascii) :
  delimited rest = true ->
  number ("-"%char :: digits d ++ rest) =
    let literal := String "-" (NilEmpty.string_of_uint d) in
    match NilZero.int_of_string literal with
    | Some i =>
        if String.eqb (Js.Z_toString (Z.of_int i)) literal
        then Some (Z.of_int i, rest) else None
    | None => None
    end.
Proof.
  intros Hrest. unfold number.
  change (N.eqb (N_of_ascii "-") 45) with true. cbv iota.
  rewrite (span_digits_digits d rest Hrest), (delimited_continues rest Hrest).
  cbn [app string_of_list_ascii]. unfold digits.
  rewrite string_of_list_ascii_of_string. reflexivity.
Qed.

Lemma to_int_proper (n : Z) :
  Z.to_int n <> Decimal.Pos Decimal.Nil /\ Z.to_int n <> Decimal.Neg Decimal.Nil.
Proof.
  destruct n as [|p|p]; cbn [Z.to_int]; split; try discriminate;
    intros [= H]; exact (DecimalPos.Unsigned.to_uint_nonnil p H).
Qed.

Lemma number_chars_shape (n : Z) :
  (exists d, d <> Decimal.Nil /\ number_chars n = digits d /\
             Js.Z_toString n = NilEmpty.string_of_uint d) \/
  (exists d, number_chars n = "-"%char :: digits d /\
             Js.Z_toString n = String "-" (NilEmpty.string_of_uint d)).
Proof.
  unfold number_chars, Js.Z_toString.
  destruct n as [|p|p]; cbn [Z.to_int NilZero.string_of_int].
  - left. exists Decimal.zero. repeat split. discriminate.
  - left. exists (Pos.to_uint p).
    pose proof (DecimalPos.Unsigned.to_uint_nonnil p) as Hp.
    split; [exact Hp|]. destruct (Pos.to_uint p); first [contradiction | split; reflexivity].
  - right. exists (Pos.to_uint p).
    pose proof (DecimalPos.Unsigned.to_uint_nonnil p) as Hp.
    destruct (Pos.to_uint p); first [contradiction | split; reflexivity].
Qed.

Lemma number_number_chars (n : Z) (rest : list ascii) :
  delimited rest = true ->
  number (number_chars n ++ rest) = Some (n, rest).
Proof.
  intros Hrest.
  assert (Hparse : NilZero.int_of_string (Js.Z_toString n) = Some (Z.to_int n)).
  { unfold Js.Z_toString. apply NilZero.isi; apply to_int_proper. }
  destruct (number_chars_shape n) as [(d & Hd & Hchars & Hlit) | (d & Hchars & Hlit)];
    rewrite Hchars.
  - rewrite (number_unsigned d rest Hd Hrest). cbv zeta.
    rewrite <- Hlit, Hparse, DecimalZ.of_to, String.eqb_refl. reflexivity.
  - cbn [app]. rewrite (number_negative d rest Hrest). cbv zeta.
    rewrite <- Hlit, Hparse, DecimalZ.of_to, String.eqb_refl. reflexivity.
Qed.

(** *** Values *)

Lemma starts_value_facts (c : ascii) :
  starts_value c = true ->
  is_ws c = false /\ N.eqb (N_of_ascii c) 93 = false /\
  N.eqb (N_of_ascii c) 125 = false.
Proof.
  destruct c as [[] [] [] [] [] [] [] []]; try discriminate; repeat split.
Qed.

Lemma digits_head (d : Decimal.uint) :
  d <> Decimal.Nil ->
  exists c tl, digits d = c :: tl /\ is_digit c = true.
Proof.
  intros Hd. destruct d; first [contradiction | eexists _, _; split; reflexivity].
Qed.

Lemma number_chars_head (n : Z) :
  exists c tl, number_chars n = c :: tl /\
               (N.eqb (N_of_ascii c) 45 || is_digit c = true).
Proof.
  destruct (number_chars_shape n) as [(d & Hd & -> & _) | (d & -> & _)].
  - destruct (digits_head d Hd) as (c & tl & -> & Hc).
    exists c, tl. rewrite Hc, orb_true_r. split; reflexivity.
  - eexists _, _. split; reflexivity.
Qed.

Lemma quote_string_head (s : string) :
  exists tl, quote_string s = "034"%char :: tl.
Proof. eexists. reflexivity. Qed.

(** Every serialised value begins with a character that opens a value. *)
Lemma chars_head (v : JSON) :
  exists c tl, chars v = c :: tl /\ starts_value c = true.
Proof.
  destruct v as [ | [] | n | s | items | fields ];
    try (eexists _, _; split; reflexivity).
  destruct (number_chars_head n) as (c & tl & Hn & Hc).
  exists c, tl. split; [exact Hn|].
  destruct c as [[] [] [] [] [] [] [] []]; try discriminate; reflexivity.
Qed.

Lemma value_number (fuel : nat) (c : ascii) (tl : list ascii) :
  N.eqb (N_of_ascii c) 45 || is_digit c = true ->
  value (S fuel) (c :: tl) =
    match number (c :: tl) with
    | Some (z, rest) => Some (JNumber z, rest)
    | None => None
    end.
Proof.
  destruct c as [[] [] [] [] [] [] [] []]; try discriminate; reflexivity.
Qed.

Lemma value_string (fuel : nat) (tl : list ascii) :
  value (S fuel) ("034"%char :: tl) =
    match string_body tl with
    | Some (s, rest) => Some (JString s, rest)
    | None => None
    end.
Proof. reflexivity. Qed.

Lemma value_array (fuel : nat) (c : ascii) (tl : list ascii) :
  starts_value c = true ->
  value (S fuel) ("["%char :: c :: tl) =
    match elements fuel (c :: tl) with
    | Some (items, rest) => Some (JArray items, rest)
    | None => None
    end.
Proof.
  destruct c as [[] [] [] [] [] [] [] []]; try discriminate; reflexivity.
Qed.

Lemma value_object (fuel : nat) (tl : list ascii) :
  value (S fuel) ("{"%char :: "034"%char :: tl) =
    match members fuel ("034"%char :: tl) with
    | Some (fields, rest) => Some (JObject fields, rest)
    | None => None
    end.
Proof. reflexivity. Qed.

Lemma elements_last (fuel : nat) (l : list ascii) v rest :
  value fuel l = Some (v, "]"%char :: rest) ->
  elements (S fuel) l = Some ([v], rest).
Proof. intros H. cbn [elements]. rewrite H. reflexivity. Qed.

Lemma elements_more (fuel : nat) (l : list ascii) v rest vs rest' :
  value fuel l = Some (v, ","%char :: rest) ->
  elements fuel rest = Some (vs, rest') ->
  elements (S fuel) l = Some (v :: vs, rest').
Proof.
  intros H1 H2. cbn [elements]. rewrite H1. cbn [skip_ws].
  change (is_ws ",") with false. cbv iota.
  change (N.eqb (N_of_ascii ",") 93) with false.
  change (N.eqb (N_of_ascii ",") 44) with true. cbv iota zeta.
  rewrite H2. reflexivity.
Qed.

Lemma members_last (fuel : nat) (tl : list ascii) k l v rest :
  string_body tl = Some (k, ":"%char :: l) ->
  value fuel l = Some (v, "}"%char :: rest) ->
  members (S fuel) ("034"%char :: tl) = Some ([(k, v)], rest).
Proof.
  intros H1 H2. cbn [members skip_ws].
  change (is_ws "034") with false. cbv iota.
  change (N.eqb (N_of_ascii "034") 34) with true. cbn [negb].
  rewrite H1. cbn [skip_ws].
  change (is_ws ":") with false. cbv iota.
  change (N.eqb (N_of_ascii ":") 58) with true. cbn [negb].
  rewrite H2. reflexivity.
Qed.

Lemma members_more (fuel : nat) (tl : list ascii) k l v rest fs rest' :
  string_body tl = Some (k, ":"%char :: l) ->
  value fuel l = Some (v, ","%char :: rest) ->
  members fuel rest = Some (fs, rest') ->
  members (S fuel) ("034"%char :: tl) = Some ((k, v) :: fs, rest').
Proof.
  intros H1 H2 H3. cbn [members skip_ws].
  change (is_ws "034") with false. cbv iota.
  change (N.eqb (N_of_ascii "034") 34) with true. cbn [negb].
  rewrite H1. cbn [skip_ws].
  change (is_ws ":") with false. cbv iota.
  change (N.eqb (N_of_ascii ":") 58) with true. cbn [negb].
  rewrite H2. cbn [skip_ws].
  change (is_ws ",") with false. cbv iota.
  change (N.eqb (N_of_ascii ",") 125) with false.
  change (N.eqb (N_of_ascii ",") 44) with true. cbv iota zeta.
  rewrite H3. reflexivity.
Qed.

Lemma join_cons_cons (sep : ascii) (p q : list ascii) (ps : list (list ascii)) :
  join sep (p :: q :: ps) = p ++ sep :: join sep (q :: ps).
Proof. reflexivity. Qed.

Lemma elements_readable (x : JSON) (xs : list JSON) :
  Forall readable (x :: xs) ->
  forall fuel rest,
    list_sum (map (fun y => S (size y)) (x :: xs)) <= fuel ->
    elements fuel (join ","%char (map chars (x :: xs)) ++ "]"%char :: rest)
    = Some (x :: xs, rest).
Proof.
  revert x. induction xs as [|y ys IH]; intros x Hall fuel rest Hfuel;
    inversion Hall as [|? ? Hx Hrest]; subst;
    destruct fuel as [|fuel]; cbn [map list_sum fold_right] in Hfuel; try lia.
  - apply elements_last. cbn [map join]. apply Hx; [lia | reflexivity].
  - cbn [map]. rewrite join_cons_cons, <- app_assoc. cbn [app].
    eapply elements_more.
    + apply Hx; [lia | reflexivity].
    + apply (IH y Hrest). cbn [map list_sum fold_right]. lia.
Qed.

Lemma members_readable (f : string * JSON) (fs : list (string * JSON)) :
  Forall (fun kv => readable (snd kv)) (f :: fs) ->
  forall fuel rest,
    list_sum (map (fun kv => S (size (snd kv))) (f :: fs)) <= fuel ->
    members fuel (join ","%char (map field_chars (f :: fs)) ++ "}"%char :: rest)
    = Some (f :: fs, rest).
Proof.
  revert f. induction fs as [|g gs IH]; intros [k x] Hall fuel rest Hfuel;
    inversion Hall as [|? ? Hx Hrest]; subst; cbn [snd] in Hx;
    destruct fuel as [|fuel]; cbn [map list_sum fold_right snd] in Hfuel; try lia.
  - cbn [map join field_chars]. rewrite <- app_assoc. cbn [app].
    destruct (string_body_quote_string k (":"%char :: chars x ++ "}"%char :: rest))
      as (tl & -> & Hbody).
    eapply members_last; [exact Hbody|].
    apply Hx; [lia | reflexivity].
  - cbn [map]. rewrite join_cons_cons, <- app_assoc. cbn [app].
    cbn [field_chars]. rewrite <- app_assoc. cbn [app].
    match goal with
    | |- members _ (quote_string k ++ ?r) = _ =>
        destruct (string_body_quote_string k r) as (tl & -> & Hbody)
    end.
    eapply members_more; [exact Hbody | |].
    + apply Hx; [lia | reflexivity].
    + apply (IH g Hrest). cbn [map list_sum fold_right]. lia.
Qed.

Theorem value_chars (v : JSON) : readable v.
Proof.
  induction v as [ | b | n | s | items IH | fields IH ] using JSON_nested_ind;
    intros fuel rest Hfuel Hrest;
    (destruct fuel as [|fuel]; [cbn [size] in Hfuel; lia|]).
  - reflexivity.
  - destruct b; reflexivity.
  - destruct (number_chars_head n) as (c & tl & Hn & Hc).
    cbn [chars]. pose proof (number_number_chars n rest Hrest) as Hnum.
    rewrite Hn in *. cbn [app] in *.
    rewrite (value_number fuel c _ Hc), Hnum. reflexivity.
  - cbn [chars].
    destruct (string_body_quote_string s rest) as (tl & -> & Hbody).
    rewrite value_string, Hbody. reflexivity.
  - destruct items as [|x xs]; [reflexivity|].
    cbn [chars]. cbn [app]. rewrite <- app_assoc. cbn [app].
    pose proof (elements_readable x xs IH fuel rest) as Hel.
    cbn [size] in Hfuel. specialize (Hel ltac:(lia)).
    destruct (chars_head x) as (c & tl & Hx & Hc).
    assert (Hshape : exists tl',
      join ","%char (map chars (x :: xs)) ++ "]"%char :: rest = c :: tl').
    { destruct xs; cbn [map join]; rewrite Hx; eexists; reflexivity. }
    destruct Hshape as (tl' & Hshape). rewrite Hshape in *.
    rewrite (value_array fuel c tl' Hc), Hel. reflexivity.
  - destruct fields as [|[k x] fs]; [reflexivity|].
    cbn [chars]. cbn [app]. rewrite <- app_assoc. cbn [app].
    pose proof (members_readable (k, x) fs IH fuel rest) as Hmem.
    cbn [size] in Hfuel. specialize (Hmem ltac:(lia)).
    fold field_chars.
    assert (Hshape : exists tl',
      join ","%char (map field_chars ((k, x) :: fs)) ++ "}"%char :: rest
      = "034"%char :: tl').
    { destruct fs; cbn [map join field_chars]; eexists; reflexivity. }
    destruct Hshape as (tl' & Hshape). rewrite Hshape in *.
    rewrite value_object, Hmem. reflexivity.
Qed.

(** *** Fuel *)

Lemma sum_le_join {A : Type} (weight : A -> nat) (f : A -> list ascii)
    (l : list A) :
  Forall (fun a => weight a <= List.length (f a)) l ->
  list_sum (map (fun a => S (weight a)) l)
    <= S (List.length (join ","%char (map f l))).
Proof.
  induction l as [|a l IH]; intros Hall; [cbn; lia|].
  inversion Hall as [|? ? Ha Hl]; subst. specialize (IH Hl).
  destruct l as [|b l].
  - cbn [map join list_sum fold_right]. lia.
  - cbn [map]. rewrite join_cons_cons, length_app.
    cbn [map list_sum fold_right List.length] in *. lia.
Qed.

(** The fuel [size v] never exceeds the length of the text written for
    [v]. *)
Lemma size_le_length (v : JSON) : size v <= List.length (chars v).
Proof.
  induction v as [ | b | n | s | items IH | fields IH ] using JSON_nested_ind.
  - cbn. lia.
  - destruct b; cbn; lia.
  - destruct (number_chars_head n) as (c & tl & Hn & _).
    cbn [size chars]. rewrite Hn. cbn [List.length]. lia.
  - cbn [size chars]. unfold quote_string. cbn [app List.length]. lia.
  - pose proof (sum_le_join size chars items IH) as Hsum.
    cbn [size chars List.length]. rewrite length_app. cbn [List.length]. lia.
  - assert (Hfields : Forall (fun kv : string * JSON =>
                        size (snd kv) <= List.length (field_chars kv)) fields).
    { eapply Forall_impl; [exact IH|]. intros [k x] Hx. cbn [snd] in *.
      unfold field_chars. rewrite length_app. cbn [List.length]. lia. }
    pose proof (sum_le_join (fun kv => size (snd kv)) field_chars fields Hfields)
      as Hsum.
    cbn [size chars List.length]. fold field_chars.
    rewrite length_app. cbn [List.length]. lia.
Qed.

(** [JSON.parse(JSON.stringify(v))] is [v]. *)
Theorem parse_stringify (v : JSON) : JSON_parse (JSON_stringify v) = Some v.
Proof.
  unfold JSON_parse, JSON_stringify.
  rewrite list_ascii_of_string_of_list_ascii.
  pose proof (value_chars v (S (List.length (chars v))) []) as H.
  rewrite app_nil_r in H. rewrite H; [reflexivity | | reflexivity].
  pose proof (size_le_length v). lia.
Qed.

End RoundTrip.

(** ** Running the session store *)

Lemma truthy_Some (s : string) : s <> "" -> Js.truthy (Some s) = true.
Proof.
  intros Hs. unfold Js.truthy.
  destruct (String.eqb_spec s ""); [contradiction | reflexivity].
Qed.

Lemma truthy_false (v : option string) :
  Js.truthy v = false <-> absent_or_empty v.
Proof.
  unfold absent_or_empty. destruct v as [s|]; simpl.
  - destruct (String.eqb_spec s "") as [->|Hne]; simpl.
    + split; [right; reflexivity | reflexivity].
    + split; [discriminate | intros [H|H]; [discriminate | congruence]].
  - split; [left; reflexivity | reflexivity].
Qed.

Lemma getStoredToken_run (w : World) :
  getStoredToken w = (w, Normal (stored_token w)).
Proof.
  js_unfold. unfold stored_token. destruct (window_defined w); reflexivity.
Qed.

Lemma setStoredToken_stored (t : string) (e : Z) (w : World) :
  window_defined w = true ->
  stored_token (fst (setStoredToken t e w)) = Some t.
Proof.
  intros Hw. js_unfold. unfold stored_token. rewrite Hw. simpl. rewrite Hw.
  rewrite lookup_insert_ne by discriminate. apply lookup_insert_eq.
Qed.

Lemma clearStoredToken_stored (w : World) :
  stored_token (fst (clearStoredToken w)) = None.
Proof.
  js_unfold. unfold stored_token. destruct (window_defined w) eqn:E; simpl.
  - rewrite E. rewrite lookup_delete_ne by discriminate. apply lookup_delete_eq.
  - rewrite E. reflexivity.
Qed.

(** With a [window], [setStoredToken] writes both entries over whatever was
    there and [clearStoredToken] removes both. *)
Lemma setStoredToken_persists_both (t : string) (e : Z) (w : World) :
  window_defined w = true ->
  localStorage (fst (setStoredToken t e w)) =
    <[ "auth_expires" := Js.Z_toString e ]>
      (<[ "auth_token" := t ]> (localStorage w)).
Proof. intros Hw. js_unfold. rewrite Hw. reflexivity. Qed.

Lemma clearStoredToken_removes_both (w : World) :
  window_defined w = true ->
  localStorage (fst (clearStoredToken w)) =
    delete "auth_expires" (delete "auth_token" (localStorage w)).
Proof. intros Hw. js_unfold. rewrite Hw. reflexivity. Qed.

(** Without a [window] the three helpers touch nothing: reads see no
    token, writes are dropped. *)
Lemma session_store_without_window (t : string) (e : Z) (w : World) :
  window_defined w = false ->
  getStoredToken w = (w, Normal None) /\
  setStoredToken t e w = (w, Normal tt) /\
  clearStoredToken w = (w, Normal tt).
Proof. intros Hw. js_unfold. rewrite Hw. repeat split. Qed.

Example session_store_server_side :
  snd ((do _ <- setStoredToken "tok-1" 1700000000000; getStoredToken)%js
         server_side)
  = Normal None.
Proof. reflexivity. Qed.

(** ** Running the header builder *)

Lemma getHeaders_run (token : option string) (w : World) :
  getHeaders token w =
    (w, Normal
          (match Js.or_else token (stored_token w) with
           | Some t =>
               if Js.truthy (Some t)
               then <[ "Authorization" := "Bearer " +:+ t ]>
                      ({[ "Content-Type" := "application/json" ]} : gmap string string)
               else {[ "Content-Type" := "application/json" ]}
           | None => {[ "Content-Type" := "application/json" ]}
           end)).
Proof.
  unfold getHeaders, Js.or_else, bind.
  destruct (Js.truthy token) eqn:Et.
  - unfold ret. destruct token as [t|]; [|discriminate]. rewrite !Et. reflexivity.
  - rewrite getStoredToken_run.
    destruct (stored_token w) as [s|]; [|reflexivity].
    destruct (Js.truthy (Some s)); reflexivity.
Qed.

(** The token [getHeaders] settles on: the explicit one when it is truthy,
    the stored one otherwise. *)
Lemma getHeaders_lookup (token : option string) (w : World)
    (h : gmap string string) :
  getHeaders token w = (w, Normal h) ->
  h !! "Content-Type" = Some "application/json" /\
  h !! "Authorization" =
    match Js.or_else token (stored_token w) with
    | Some t => if Js.truthy (Some t) then Some ("Bearer " +:+ t) else None
    | None => None
    end.
Proof.
  rewrite getHeaders_run. intros [= <-].
  destruct (Js.or_else token (stored_token w)) as [t|]; [|split; reflexivity].
  unfold Js.truthy. destruct (String.eqb t ""); split; reflexivity.
Qed.

(** [getHeaders] reads the world through [window] and the ["auth_token"]
    entry only. *)
Lemma getHeaders_reads_token_only (token : option string) (w1 w2 : World) :
  stored_token w1 = stored_token w2 ->
  snd (getHeaders token w1) = snd (getHeaders token w2).
Proof. intros H. rewrite !getHeaders_run, H. reflexivity. Qed.

(** ** Running [apiCall] *)

Section Run.

Variable network : string -> RequestInit -> Completion Response.

(** [apiCall] builds its headers, records exactly one call to [fetch] and
    hands the outcome to [normalize] or to the [catch] clause. *)
Lemma apiCall_run endpoint method (body : option (list (string * JSON)))
    token (w : World) :
  exists h : gmap string string,
    getHeaders token w = (w, Normal h) /\
    let url := API_BASE w +:+ endpoint in
    let options :=
      {| method := method; headers := h;
         body := match body with
                 | Some b => Some (JSON_stringify (JObject b))
                 | None => None
                 end |} in
    let w' := with_fetch_call (url, options) w in
    apiCall network endpoint method body token w =
      match network url options with
      | Normal r => try_catch (normalize r) apiCall_catch w'
      | Throw e => apiCall_catch e w'
      end.
Proof.
  eexists. split; [apply getHeaders_run|].
  cbv zeta. unfold apiCall, apiCall_try, try_catch at 1, bind.
  rewrite getHeaders_run. unfold read, fetch.
  destruct (network _ _) as [r|e]; [|reflexivity].
  unfold try_catch. reflexivity.
Qed.

(** [normalize] and the [catch] clause leave the world alone and never
    let a thrown value escape. *)
Lemma normalize_caught (r : Response) (w : World) :
  exists res, try_catch (normalize r) apiCall_catch w = (w, Normal res).
Proof.
  unfold try_catch, normalize, apiCall_catch, bind, await, ret.
  destruct (negb (ok r)).
  - destruct (text r); eexists; reflexivity.
  - destruct (match Headers_get "content-type" r with
              | Some ct => Js.includes "application/json" ct
              | None => false
              end).
    + destruct (json r); eexists; reflexivity.
    + destruct (text r); eexists; reflexivity.
Qed.

(** [apiCall] always returns: one call to [fetch] is recorded and the
    completion is normal. *)
Lemma apiCall_total endpoint method (body : option (list (string * JSON)))
    token (w : World) :
  exists (h : gmap string string) (res : ApiResponse),
    getHeaders token w = (w, Normal h) /\
    apiCall network endpoint method body token w =
      (with_fetch_call
         (API_BASE w +:+ endpoint,
          {| method := method; headers := h;
             body := match body with
                     | Some b => Some (JSON_stringify (JObject b))
                     | None => None
                     end |}) w,
       Normal res).
Proof.
  destruct (apiCall_run endpoint method body token w) as (h & Hh & Hrun).
  cbv zeta in Hrun. exists h.
  destruct (network _ _) as [r|e].
  - destruct (normalize_caught r
      (with_fetch_call
         (API_BASE w +:+ endpoint,
          {| method := method; headers := h;
             body := match body with
                     | Some b => Some (JSON_stringify (JObject b))
                     | None => None
                     end |}) w)) as [res Hres].
    exists res. split; [exact Hh|]. rewrite Hrun. exact Hres.
  - eexists. split; [exact Hh|]. rewrite Hrun. reflexivity.
Qed.

End Run.

(** ** Session store *)

(** C6. Where persistent storage exists, [setStoredToken t e] followed by
    [getStoredToken] returns [t], and after a following [clearStoredToken]
    the next [getStoredToken] returns nothing.  The four calls are run in
    sequence and their two reads are returned together. *)
Theorem session_store_round_trip (t : string) (e : Z) (w : World) :
  window_defined w = true ->
  snd ((do _ <- setStoredToken t e;
        do first <- getStoredToken;
        do _ <- clearStoredToken;
        do second <- getStoredToken;
        ret (first, second))%js w)
  = Normal (Some t, None).
Proof.
  intros Hw. unfold bind at 1.
  destruct (setStoredToken t e w) as [w1 [[]|x]] eqn:E1;
    [|js_unfold; rewrite Hw in E1; discriminate].
  assert (H1 : stored_token w1 = Some t).
  { replace w1 with (fst (setStoredToken t e w)) by (rewrite E1; reflexivity).
    apply setStoredToken_stored, Hw. }
  unfold bind at 1. rewrite getStoredToken_run, H1.
  unfold bind at 1.
  pose proof (clearStoredToken_stored w1) as H2.
  destruct (clearStoredToken w1) as [w2 [[]|x]] eqn:E2;
    [|js_unfold; destruct (window_defined w1); discriminate].
  simpl in H2. unfold bind. rewrite getStoredToken_run, H2. reflexivity.
Qed.

Lemma session_store_round_trip_witness :
  window_defined browser = true /\
  snd ((do _ <- setStoredToken "tok-1" 1700000000000;
        do first <- getStoredToken;
        do _ <- clearStoredToken;
        do second <- getStoredToken;
        ret (first, second))%js browser)
  = Normal (Some "tok-1", None).
Proof.
  split; [reflexivity|].
  apply (session_store_round_trip "tok-1" 1700000000000 browser). reflexivity.
Defined.

(** ** Bearer credentials *)

(** C1, amended.  Every call of [apiCall] hands exactly one request to
    [fetch].  When a non-empty token is available, as the explicit argument
    or, failing a non-empty explicit argument, in the session store, that
    request carries [Authorization: Bearer <token>].  When neither source
    holds a non-empty token (absent or the empty string), the request has no
    [Authorization] entry at all.  [Content-Type] is always present. *)
Theorem authorization_header_of_available_token network endpoint method
    (body : option (list (string * JSON))) (token : option string) (w : World) :
  exists url options,
    fetch_calls (fst (apiCall network endpoint method body token w))
      = fetch_calls w ++ [(url, options)] /\
    headers options !! "Content-Type" = Some "application/json" /\
    (forall t, t <> "" ->
       token = Some t \/
       (absent_or_empty token /\ snd (getStoredToken w) = Normal (Some t)) ->
       headers options !! "Authorization" = Some ("Bearer " +:+ t)) /\
    (absent_or_empty token ->
     (forall s, snd (getStoredToken w) = Normal s -> absent_or_empty s) ->
     headers options !! "Authorization" = None).
Proof.
  destruct (apiCall_total network endpoint method body token w)
    as (h & res & Hh & Hrun).
  destruct (getHeaders_lookup token w h Hh) as [Hct Hauth].
  eexists _, _. rewrite Hrun. split; [reflexivity|].
  cbn [headers]. split; [exact Hct|].
  rewrite Hauth, getStoredToken_run. cbn [snd].
  unfold Js.or_else. split.
  - intros t Ht [->|[Hex Hst]].
    + rewrite !truthy_Some by exact Ht. reflexivity.
    + apply truthy_false in Hex. rewrite Hex.
      injection Hst as ->. rewrite truthy_Some by exact Ht. reflexivity.
  - intros Hex Hst. apply truthy_false in Hex. rewrite Hex.
    specialize (Hst _ eq_refl). apply truthy_false in Hst.
    destruct (stored_token w) as [s|]; [|reflexivity].
    rewrite Hst. reflexivity.
Qed.

Lemma authorization_header_of_available_token_witness :
  (exists url options,
     fetch_calls (fst (apiCall (offline "network down") "/api/entries" GET None
                         None (fst (setStoredToken "abc" 1700000000000 browser))))
       = [(url, options)] /\
     headers options !! "Authorization" = Some "Bearer abc") /\
  (exists url options,
     fetch_calls (fst (apiCall (offline "network down") "/api/entries" GET None
                         None browser))
       = [(url, options)] /\
     headers options !! "Authorization" = None).
Proof.
  split.
  - destruct (authorization_header_of_available_token
                (offline "network down") "/api/entries" GET None None
                (fst (setStoredToken "abc" 1700000000000 browser)))
      as (url & options & Hcalls & _ & Hyes & _).
    exists url, options. split; [exact Hcalls|].
    apply (Hyes "abc"); [discriminate|].
    right. split; [left; reflexivity | reflexivity].
  - destruct (authorization_header_of_available_token
                (offline "network down") "/api/entries" GET None None browser)
      as (url & options & Hcalls & _ & _ & Hno).
    exists url, options. split; [exact Hcalls|].
    apply Hno; [left; reflexivity|].
    intros s [= <-]. left; reflexivity.
Defined.

(** C1 as stated fails on the empty string: after [setStoredToken "" e] the
    store does hold a token ([getStoredToken] returns [""], not [null]), yet
    the request carries no [Authorization] entry instead of
    [Authorization: "Bearer "]. *)
Lemma authorization_header_empty_stored_token :
  let w := fst (setStoredToken "" 1700000000000 browser) in
  snd (getStoredToken w) = Normal (Some "") /\
  map (fun call => headers (snd call) !! "Authorization")
      (fetch_calls (fst (apiCall (offline "network down") "/api/entries" GET
                           None None w)))
    = [None] /\
  (None : option string) <> Some ("Bearer " +:+ "").
Proof. split; [reflexivity|]. split; [reflexivity | discriminate]. Qed.

(** C7, amended.  Whenever the explicit token argument is a non-empty
    string, the request's headers are built from it alone: they are
    [Content-Type] plus [Authorization: Bearer <explicit>], whatever the
    session store holds. *)
Theorem explicit_token_takes_precedence network endpoint method
    (body : option (list (string * JSON))) (t : string) (w : World) :
  t <> "" ->
  exists url options,
    fetch_calls (fst (apiCall network endpoint method body (Some t) w))
      = fetch_calls w ++ [(url, options)] /\
    headers options =
      <[ "Authorization" := "Bearer " +:+ t ]>
        {[ "Content-Type" := "application/json" ]}.
Proof.
  intros Ht.
  destruct (apiCall_total network endpoint method body (Some t) w)
    as (h & res & Hh & Hrun).
  rewrite getHeaders_run in Hh. unfold Js.or_else in Hh.
  rewrite !truthy_Some in Hh by exact Ht. injection Hh as <-.
  eexists _, _. rewrite Hrun. split; reflexivity.
Qed.

Lemma explicit_token_takes_precedence_witness :
  "override" <> "" /\
  exists url options,
    fetch_calls (fst (apiCall (offline "network down") "/api/entries" GET None
                        (Some "override")
                        (fst (setStoredToken "stored" 1700000000000 browser))))
      = [(url, options)] /\
    headers options !! "Authorization" = Some "Bearer override".
Proof.
  split; [discriminate|].
  destruct (explicit_token_takes_precedence (offline "network down")
              "/api/entries" GET None "override"
              (fst (setStoredToken "stored" 1700000000000 browser)))
    as (url & options & Hcalls & Hheaders); [discriminate|].
  exists url, options. split; [exact Hcalls|].
  rewrite Hheaders. reflexivity.
Defined.

(** C7 as stated fails for the empty string: an explicit token [""] is
    falsy, so [token || getStoredToken()] falls through to the stored token
    and the header is built from the store, not from the argument. *)
Lemma explicit_empty_token_yields_to_store :
  let w := fst (setStoredToken "stored" 1700000000000 browser) in
  map (fun call => headers (snd call) !! "Authorization")
      (fetch_calls (fst (apiCall (offline "network down") "/api/entries" GET
                           None (Some "") w)))
    = [Some "Bearer stored"] /\
  Some "Bearer stored" <> Some ("Bearer " +:+ "").
Proof. split; [reflexivity | discriminate]. Qed.

(** ** Expiry *)

Lemma stored_token_after_set (t : string) (e : Z) (w : World) :
  stored_token (fst (setStoredToken t e w)) =
    if window_defined w then Some t else None.
Proof.
  destruct (window_defined w) eqn:Hw.
  - apply setStoredToken_stored, Hw.
  - js_unfold. unfold stored_token. rewrite Hw. simpl. rewrite Hw. reflexivity.
Qed.

Lemma stored_token_with_now (t : Z) (w : World) :
  stored_token (with_now t w) = stored_token w.
Proof. reflexivity. Qed.

(** C9.  Store the same token with two different expiry stamps and build
    headers at two different times, without an explicit token: the headers
    are the same.  In a browser a non-empty token is attached as
    [Authorization: Bearer <token>] in both runs, however [expiresAt]
    compares to the clock, and [apiCall] records the same request in both.
    Only [clearStoredToken] removes the header. *)
Theorem expiry_is_never_consulted (t : string) (e1 e2 now1 now2 : Z)
    (w : World) :
  let w1 := with_now now1 (fst (setStoredToken t e1 w)) in
  let w2 := with_now now2 (fst (setStoredToken t e2 w)) in
  snd (getHeaders None w1) = snd (getHeaders None w2) /\
  (window_defined w = true -> t <> "" ->
   snd (getHeaders None w1) =
     Normal (<[ "Authorization" := "Bearer " +:+ t ]>
               {[ "Content-Type" := "application/json" ]})) /\
  (forall network endpoint method (body : option (list (string * JSON))),
     fetch_calls (fst (apiCall network endpoint method body None w1)) =
     fetch_calls (fst (apiCall network endpoint method body None w2))) /\
  snd (getHeaders None (fst (clearStoredToken w1))) =
    Normal {[ "Content-Type" := "application/json" ]}.
Proof.
  intros w1 w2.
  assert (Hst : stored_token w1 = stored_token w2).
  { unfold w1, w2.
    rewrite !stored_token_with_now, !stored_token_after_set. reflexivity. }
  assert (Hheaders : snd (getHeaders None w1) = snd (getHeaders None w2))
    by (apply getHeaders_reads_token_only, Hst).
  split; [exact Hheaders|]. split; [|split].
  - intros Hw Ht. rewrite getHeaders_run. cbn [snd].
    replace (stored_token w1) with (Some t).
    + unfold Js.or_else. cbn [Js.truthy]. fold (Js.truthy (Some t)).
      rewrite truthy_Some by exact Ht. reflexivity.
    + unfold w1.
      rewrite stored_token_with_now, stored_token_after_set, Hw. reflexivity.
  - intros network endpoint method body.
    destruct (apiCall_total network endpoint method body None w1)
      as (h1 & res1 & Hh1 & Hrun1).
    destruct (apiCall_total network endpoint method body None w2)
      as (h2 & res2 & Hh2 & Hrun2).
    rewrite Hh1, Hh2 in Hheaders. injection Hheaders as ->.
    rewrite Hrun1, Hrun2. unfold w1, w2. js_unfold.
    destruct (window_defined w); reflexivity.
  - rewrite getHeaders_run, clearStoredToken_stored. reflexivity.
Qed.

Lemma expiry_is_never_consulted_witness :
  window_defined browser = true /\ "tok-1" <> "" /\
  snd (getHeaders None
         (with_now 5000 (fst (setStoredToken "tok-1" 1000 browser)))) =
    Normal (<[ "Authorization" := "Bearer tok-1" ]>
              {[ "Content-Type" := "application/json" ]}).
Proof.
  split; [reflexivity|]. split; [discriminate|].
  apply (expiry_is_never_consulted "tok-1" 1000 9000 5000 5000 browser);
    [reflexivity | discriminate].
Defined.

(** ** Substrings *)

Lemma append_cons (c : ascii) (s1 s2 : string) :
  String c s1 +:+ s2 = String c (s1 +:+ s2).
Proof. reflexivity. Qed.

Lemma prefix_spec (p s : string) :
  String.prefix p s = true <-> exists post, s = p +:+ post.
Proof.
  revert s. induction p as [|c p IH]; intros s.
  - destruct s; cbn; split; eauto.
  - destruct s as [|d s]; cbn.
    + split; [discriminate | intros [post H]; discriminate].
    + setoid_rewrite append_cons.
      destruct (Ascii.ascii_dec c d) as [->|Hne].
      * rewrite IH. split; intros [post H]; exists post; congruence.
      * split; [discriminate | intros [post H]; congruence].
Qed.

(** [Js.includes needle hay] holds exactly when [hay] can be cut as
    [pre ++ needle ++ post]. *)
Lemma includes_spec (needle hay : string) :
  Js.includes needle hay = true <->
  exists pre post, hay = pre +:+ needle +:+ post.
Proof.
  induction hay as [|c hay IH].
  - cbn [Js.includes]. rewrite orb_false_r, prefix_spec. split.
    + intros [post H]. exists "", post. exact H.
    + intros (pre & post & H). destruct pre; [eauto | discriminate].
  - cbn [Js.includes]. rewrite orb_true_iff, prefix_spec, IH. split.
    + intros [[post H] | (pre & post & H)].
      * exists "", post. exact H.
      * exists (String c pre), post. rewrite append_cons. congruence.
    + intros (pre & post & H). destruct pre as [|d pre].
      * left. exists post. exact H.
      * right. exists pre, post. rewrite append_cons in H. congruence.
Qed.

(** ** Response normalisation *)

Section Normalisation.

Variable network : string -> RequestInit -> Completion Response.

(** Once the request [apiCall] issued and the network's answer to it are
    known, the call reduces to [normalize] or the [catch] clause. *)
Lemma apiCall_answer endpoint method (body : option (list (string * JSON)))
    token (w : World) url options :
  fetch_calls (fst (apiCall network endpoint method body token w))
    = fetch_calls w ++ [(url, options)] ->
  snd (apiCall network endpoint method body token w) =
    match network url options with
    | Normal r => snd (try_catch (normalize r) apiCall_catch w)
    | Throw e => snd (apiCall_catch e w)
    end.
Proof.
  intros Hcalls.
  destruct (apiCall_total network endpoint method body token w)
    as (h & res & Hh & Htotal).
  rewrite Htotal in Hcalls. cbn [fst fetch_calls with_fetch_call] in Hcalls.
  apply app_inj_tail in Hcalls as [_ [= <- <-]].
  destruct (apiCall_run network endpoint method body token w)
    as (h' & Hh' & Hrun).
  rewrite Hh in Hh'. injection Hh' as <-. cbv zeta in Hrun. rewrite Hrun.
  destruct (network _ _) as [r|e]; [|reflexivity].
  unfold try_catch, normalize, apiCall_catch, bind, await, ret.
  destruct (negb (ok r)).
  - destruct (text r); reflexivity.
  - destruct (match Headers_get "content-type" r with
              | Some ct => Js.includes "application/json" ct
              | None => false
              end).
    + destruct (json r); reflexivity.
    + destruct (text r); reflexivity.
Qed.

(** C2.  When the response to the request has a non-success status and its
    body text is [t], [apiCall] returns [{ error: t }] for a non-empty [t]
    and [{ error: "API error: <status>" }] for an empty one. *)
Theorem non_success_status_yields_error endpoint method
    (body : option (list (string * JSON))) token (w : World)
    url options (r : Response) (t : string) :
  fetch_calls (fst (apiCall network endpoint method body token w))
    = fetch_calls w ++ [(url, options)] ->
  network url options = Normal r ->
  ok r = false ->
  text r = Normal t ->
  snd (apiCall network endpoint method body token w) =
    Normal {| data := None;
              error := Some (if String.eqb t ""
                             then "API error: " +:+ Js.N_toString (status r)
                             else t) |}.
Proof.
  intros Hcalls Hnet Hok Htext.
  rewrite (apiCall_answer _ _ _ _ _ _ _ Hcalls), Hnet.
  unfold try_catch, normalize, bind, await, ret. rewrite Hok, Htext.
  cbn [negb snd]. unfold Js.or_default, Js.truthy.
  destruct (String.eqb t ""); reflexivity.
Qed.

(** C3.  When the response has a success status: if its [Content-Type]
    contains ["application/json"] and its body parses to [v], [apiCall]
    returns [{ data: v }]; if its [Content-Type] is anything else and its
    body text is [s], [apiCall] returns [{ data: s }], the text taken as it
    is. *)
Theorem success_status_yields_data endpoint method
    (body : option (list (string * JSON))) token (w : World)
    url options (r : Response) (ct : string) :
  fetch_calls (fst (apiCall network endpoint method body token w))
    = fetch_calls w ++ [(url, options)] ->
  network url options = Normal r ->
  ok r = true ->
  Headers_get "content-type" r = Some ct ->
  ((exists pre post, ct = pre +:+ "application/json" +:+ post) ->
   forall v, json r = Normal v ->
   snd (apiCall network endpoint method body token w) =
     Normal {| data := Some v; error := None |}) /\
  (~ (exists pre post, ct = pre +:+ "application/json" +:+ post) ->
   forall s, text r = Normal s ->
   snd (apiCall network endpoint method body token w) =
     Normal {| data := Some (JString s); error := None |}).
Proof.
  intros Hcalls Hnet Hok Hct.
  rewrite (apiCall_answer _ _ _ _ _ _ _ Hcalls), Hnet.
  unfold try_catch, normalize, bind, await, ret. rewrite Hok, Hct.
  cbn [negb]. split.
  - intros Hin v Hv. apply includes_spec in Hin. rewrite Hin, Hv. reflexivity.
  - intros Hout s Hs.
    destruct (Js.includes "application/json" ct) eqn:E.
    + apply includes_spec in E. contradiction.
    + rewrite Hs. reflexivity.
Qed.

(** C10.  A success response without any [Content-Type] header takes the
    raw-text branch: with body text [s], [apiCall] completes normally with
    [{ data: s }]. *)
Theorem missing_content_type_yields_text endpoint method
    (body : option (list (string * JSON))) token (w : World)
    url options (r : Response) (s : string) :
  fetch_calls (fst (apiCall network endpoint method body token w))
    = fetch_calls w ++ [(url, options)] ->
  network url options = Normal r ->
  ok r = true ->
  Headers_get "content-type" r = None ->
  text r = Normal s ->
  snd (apiCall network endpoint method body token w) =
    Normal {| data := Some (JString s); error := None |}.
Proof.
  intros Hcalls Hnet Hok Hct Hs.
  rewrite (apiCall_answer _ _ _ _ _ _ _ Hcalls), Hnet.
  unfold try_catch, normalize, bind, await, ret.
  rewrite Hok, Hct, Hs. reflexivity.
Qed.

(** C4.  Whatever is thrown inside the [try] block, [apiCall] itself
    completes normally: with the [message] of a thrown [Error] as its
    [error], with ["Unknown error"] for any other thrown value. *)
Theorem thrown_exception_yields_error endpoint method
    (body : option (list (string * JSON))) token (w : World) (e : Thrown) :
  snd (apiCall_try network endpoint method body token w) = Throw e ->
  snd (apiCall network endpoint method body token w) =
    Normal {| data := None;
              error := Some match e with
                            | ThrownError message => message
                            | ThrownValue _ => "Unknown error"
                            end |}.
Proof.
  unfold apiCall, try_catch.
  destruct (apiCall_try network endpoint method body token w) as [w' [res|e']].
  - discriminate.
  - intros [= ->]. reflexivity.
Qed.

(** What is thrown by [fetch], [text()] or [json()] leaves the [try]
    block as it is: the block throws exactly when the network rejects the
    request or [normalize] throws on the response. *)
Lemma apiCall_try_answer endpoint method (body : option (list (string * JSON)))
    token (w : World) url options :
  fetch_calls (fst (apiCall network endpoint method body token w))
    = fetch_calls w ++ [(url, options)] ->
  snd (apiCall_try network endpoint method body token w) =
    match network url options with
    | Normal r => snd (normalize r w)
    | Throw e => Throw e
    end.
Proof.
  intros Hcalls.
  destruct (apiCall_total network endpoint method body token w)
    as (h & res & Hh & Htotal).
  rewrite Htotal in Hcalls. cbn [fst fetch_calls with_fetch_call] in Hcalls.
  apply app_inj_tail in Hcalls as [_ [= <- <-]].
  unfold apiCall_try, bind. rewrite Hh. unfold read, fetch.
  destruct (network _ _) as [r|e]; [|reflexivity].
  unfold normalize, bind, await, ret.
  destruct (negb (ok r)).
  - destruct (text r); reflexivity.
  - destruct (match Headers_get "content-type" r with
              | Some ct => Js.includes "application/json" ct
              | None => false
              end).
    + destruct (json r); reflexivity.
    + destruct (text r); reflexivity.
Qed.

End Normalisation.

Lemma non_success_status_yields_error_witness :
  snd (apiCall (answering (http_response 404 ∅ "Not found" (Normal JNull)))
         "/api/entries/9" GET None None browser)
    = Normal {| data := None; error := Some "Not found" |} /\
  snd (apiCall (answering (http_response 500 ∅ "" (Normal JNull)))
         "/api/entries/9" GET None None browser)
    = Normal {| data := None; error := Some "API error: 500" |}.
Proof.
  split.
  - apply (non_success_status_yields_error
             (answering (http_response 404 ∅ "Not found" (Normal JNull)))
             "/api/entries/9" GET None None browser
             "http://localhost:8080/api/entries/9"
             {| method := GET;
                headers := {[ "Content-Type" := "application/json" ]};
                body := None |}
             (http_response 404 ∅ "Not found" (Normal JNull)) "Not found");
      reflexivity.
  - apply (non_success_status_yields_error
             (answering (http_response 500 ∅ "" (Normal JNull)))
             "/api/entries/9" GET None None browser
             "http://localhost:8080/api/entries/9"
             {| method := GET;
                headers := {[ "Content-Type" := "application/json" ]};
                body := None |}
             (http_response 500 ∅ "" (Normal JNull)) "");
      reflexivity.
Defined.

Lemma success_status_yields_data_witness :
  snd (apiCall
         (answering
            (http_response 200
               {[ "content-type" := "application/json; charset=utf-8" ]}
               (json_text "{'id':'1','title':'x'}") (Normal JNull)))
         "/api/entries/1" GET None None browser)
    = Normal {| data := Some (JObject [("id", JString "1");
                                       ("title", JString "x")]);
                error := None |} /\
  snd (apiCall
         (answering
            (http_response 200 {[ "content-type" := "text/plain" ]}
               "pong" (Normal JNull)))
         "/api/ping" GET None None browser)
    = Normal {| data := Some (JString "pong"); error := None |}.
Proof.
  split.
  - refine (proj1 (success_status_yields_data
             (answering
                (http_response 200
                   {[ "content-type" := "application/json; charset=utf-8" ]}
                   (json_text "{'id':'1','title':'x'}") (Normal JNull)))
             "/api/entries/1" GET None None browser
             "http://localhost:8080/api/entries/1"
             {| method := GET;
                headers := {[ "Content-Type" := "application/json" ]};
                body := None |}
             (http_response 200
                {[ "content-type" := "application/json; charset=utf-8" ]}
                (json_text "{'id':'1','title':'x'}") (Normal JNull))
             "application/json; charset=utf-8"
             eq_refl eq_refl eq_refl eq_refl) _ _ eq_refl).
    exists "", "; charset=utf-8". reflexivity.
  - refine (proj2 (success_status_yields_data
             (answering
                (http_response 200 {[ "content-type" := "text/plain" ]}
                   "pong" (Normal JNull)))
             "/api/ping" GET None None browser
             "http://localhost:8080/api/ping"
             {| method := GET;
                headers := {[ "Content-Type" := "application/json" ]};
                body := None |}
             (http_response 200 {[ "content-type" := "text/plain" ]}
                "pong" (Normal JNull))
             "text/plain"
             eq_refl eq_refl eq_refl eq_refl) _ _ eq_refl).
    intros Hin. apply includes_spec in Hin. discriminate Hin.
Defined.

Lemma missing_content_type_yields_text_witness :
  snd (apiCall (answering (http_response 200 ∅ "pong" (Normal JNull)))
         "/api/ping" GET None None browser)
    = Normal {| data := Some (JString "pong"); error := None |}.
Proof.
  apply (missing_content_type_yields_text
           (answering (http_response 200 ∅ "pong" (Normal JNull)))
           "/api/ping" GET None None browser
           "http://localhost:8080/api/ping"
           {| method := GET;
              headers := {[ "Content-Type" := "application/json" ]};
              body := None |}
           (http_response 200 ∅ "pong" (Normal JNull)) "pong");
    reflexivity.
Defined.

Lemma thrown_exception_yields_error_witness :
  snd (apiCall (offline "network down") "/api/entries" GET None None browser)
    = Normal {| data := None; error := Some "network down" |} /\
  snd (apiCall
         (answering
            (http_response 200 {[ "content-type" := "application/json" ]}
               "<html>" (Throw (ThrownError "Unexpected token '<'"))))
         "/api/entries" GET None None browser)
    = Normal {| data := None; error := Some "Unexpected token '<'" |} /\
  snd (apiCall (fun _ _ => Throw (ThrownValue (JString "boom")))
         "/api/entries" GET None None browser)
    = Normal {| data := None; error := Some "Unknown error" |}.
Proof.
  split; [|split].
  - apply (thrown_exception_yields_error (offline "network down")
             "/api/entries" GET None None browser
             (ThrownError "network down")).
    reflexivity.
  - apply (thrown_exception_yields_error
             (answering
                (http_response 200 {[ "content-type" := "application/json" ]}
                   "<html>" (Throw (ThrownError "Unexpected token '<'"))))
             "/api/entries" GET None None browser
             (ThrownError "Unexpected token '<'")).
    reflexivity.
  - apply (thrown_exception_yields_error
             (fun _ _ => Throw (ThrownValue (JString "boom")))
             "/api/entries" GET None None browser
             (ThrownValue (JString "boom"))).
    reflexivity.
Defined.

(** ** Request bodies and the follow operations *)

(** C5.  Given a body, whatever the method, [apiCall] hands [fetch] one
    request that keeps the method, carries
    [Content-Type: application/json], and whose payload is
    [JSON.stringify(body)]; reading that payload back gives the body's
    fields, key for key and value for value. *)
Theorem body_is_sent_as_json network endpoint (m : Method)
    (b : list (string * JSON)) (token : option string) (w : World) :
  exists url options payload,
    fetch_calls (fst (apiCall network endpoint m (Some b) token w))
      = fetch_calls w ++ [(url, options)] /\
    method options = m /\
    headers options !! "Content-Type" = Some "application/json" /\
    body options = Some payload /\
    payload = JSON_stringify (JObject b) /\
    JSON_parse payload = Some (JObject b).
Proof.
  destruct (apiCall_total network endpoint m (Some b) token w)
    as (h & res & Hh & Hrun).
  destruct (getHeaders_lookup token w h Hh) as [Hct _].
  eexists _, _, _. rewrite Hrun. split; [reflexivity|].
  cbn [method headers body]. split; [reflexivity|].
  split; [exact Hct|]. split; [reflexivity|]. split; [reflexivity|].
  apply RoundTrip.parse_stringify.
Qed.

(** C8, amended.  [unfollow] hands [fetch] exactly one request: method
    DELETE, path [/api/follow/<username>] under the base URL, the usual
    headers, and no body at all.  The empty object [{}] is the body of the
    POST that [sendFollowRequest] issues to the same path. *)
Theorem unfollow_sends_delete_without_body network (username : string)
    (w : World) :
  exists h : gmap string string,
    getHeaders None w = (w, Normal h) /\
    fetch_calls (fst (unfollow network username w))
      = fetch_calls w
        ++ [(API_BASE w +:+ "/api/follow/" +:+ username,
             {| method := DELETE; headers := h; body := None |})] /\
    fetch_calls (fst (sendFollowRequest network username w))
      = fetch_calls w
        ++ [(API_BASE w +:+ "/api/follow/" +:+ username,
             {| method := POST; headers := h; body := Some "{}" |})].
Proof.
  unfold unfollow, sendFollowRequest.
  destruct (apiCall_total network ("/api/follow/" +:+ username) DELETE None
              None w) as (h & res & Hh & Hrun).
  destruct (apiCall_total network ("/api/follow/" +:+ username) POST (Some [])
              None w) as (h' & res' & Hh' & Hrun').
  rewrite Hh in Hh'. injection Hh' as <-.
  exists h. split; [exact Hh|]. rewrite Hrun, Hrun'. split; reflexivity.
Qed.

(** C8 as stated fails: the request [unfollow] issues has no body, where
    the wire-contract table gives [{}]. *)
Lemma unfollow_request_has_no_body :
  map (fun call => (fst call, method (snd call), body (snd call)))
      (fetch_calls (fst (unfollow (offline "network down") "alice" browser)))
    = [("http://localhost:8080/api/follow/alice", DELETE, None)] /\
  (None : option string) <> Some (JSON_stringify (JObject [])).
Proof. split; [reflexivity | discriminate]. Qed.

(** * Further properties of [src/lib/api.ts] *)

(** ** Percent-encoding *)



Lemma encode_char_unreserved (c : ascii) :
  Uri.unreserved c = true -> Uri.encode_char c = [c].
Proof. intros H. unfold Uri.encode_char. rewrite H. reflexivity. Qed.




Lemma encodeURIComponent_unreserved (s : string) :
  forallb Uri.unreserved (list_ascii_of_string s) = true ->
  Uri.encodeURIComponent s = s.
Proof.
  intros H. unfold Uri.encodeURIComponent.
  rewrite <- (string_of_list_ascii_of_string s) at 2. f_equal.
  induction (list_ascii_of_string s) as [|c l IH]; [reflexivity|].
  cbn [forallb] in H. apply andb_true_iff in H as [Hc Hl].
  cbn [flat_map]. rewrite (encode_char_unreserved c Hc), (IH Hl). reflexivity.
Qed.


(** X2.  Path parameters are interpolated as they are: for a query made of
    unreserved characters, [getUserProfile] called with the user name
    ["search?query=" ++ q] does exactly what [searchUsers q] does. *)
Theorem profile_path_is_not_encoded network (q : string) (w : World) :
  forallb Uri.unreserved (list_ascii_of_string q) = true ->
  getUserProfile network ("search?query=" +:+ q) w = searchUsers network q w.
Proof.
  intros Hq. unfold getUserProfile, searchUsers.
  rewrite (encodeURIComponent_unreserved q Hq). reflexivity.
Qed.

Lemma profile_path_is_not_encoded_witness :
  forallb Uri.unreserved (list_ascii_of_string "alice") = true /\
  getUserProfile (offline "network down") "search?query=alice" browser
    = searchUsers (offline "network down") "alice" browser.
Proof.
  split; [reflexivity|].
  apply (profile_path_is_not_encoded (offline "network down") "alice" browser).
  reflexivity.
Defined.

(** ** The catalogue of operations *)

Lemma apiCall_shape network endpoint (m : Method)
    (b : option (list (string * JSON))) (w : World) :
  exists options res,
    apiCall network endpoint m b None w
      = (with_fetch_call (API_BASE w +:+ endpoint, options) w, Normal res) /\
    getHeaders None w = (w, Normal (headers options)) /\
    method options = m /\
    body options = match b with
                   | Some fields => Some (JSON_stringify (JObject fields))
                   | None => None
                   end.
Proof.
  destruct (apiCall_total network endpoint m b None w)
    as (h & res & Hh & Hrun).
  eexists _, res. split; [exact Hrun|]. cbn [headers method body].
  split; [exact Hh|]. split; reflexivity.
Qed.


(** ** The fetch wrapper *)

(** X4.  Whatever the network does, [apiCall] returns exactly one of [data]
    and [error], calls [fetch] exactly once (no retry) and leaves [window],
    [localStorage] and the configuration as they were: a failed or
    unauthorised request never clears the session. *)
Theorem apiCall_result_and_footprint network endpoint (m : Method)
    (b : option (list (string * JSON))) (token : option string) (w : World) :
  exists (call : string * RequestInit) (res : ApiResponse),
    apiCall network endpoint m b token w = (with_fetch_call call w, Normal res) /\
    ((data res = None /\ exists msg, error res = Some msg) \/
     (error res = None /\ exists v, data res = Some v)) /\
    localStorage (with_fetch_call call w) = localStorage w /\
    window_defined (with_fetch_call call w) = window_defined w /\
    length (fetch_calls (with_fetch_call call w)) = S (length (fetch_calls w)).
Proof.
  destruct (apiCall_run network endpoint m b token w) as (h & Hh & Hrun).
  cbv zeta in Hrun. rewrite Hrun. clear Hrun.
  eexists (_, _).
  assert (Hfoot : forall c : string * RequestInit,
    localStorage (with_fetch_call c w) = localStorage w /\
    window_defined (with_fetch_call c w) = window_defined w /\
    length (fetch_calls (with_fetch_call c w)) = S (length (fetch_calls w))).
  { intros c. cbn [localStorage window_defined fetch_calls with_fetch_call].
    rewrite length_app. cbn [length]. repeat split. lia. }
  destruct (network _ _) as [r|e].
  - unfold try_catch, normalize, apiCall_catch, bind, await, ret.
    destruct (negb (ok r)).
    + destruct (text r); eexists; (split; [reflexivity|]);
        (split; [left; cbn; eauto | apply Hfoot]).
    + destruct (match Headers_get "content-type" r with
                | Some ct => Js.includes "application/json" ct
                | None => false
                end).
      * destruct (json r); eexists; (split; [reflexivity|]);
          (split; [cbn; eauto | apply Hfoot]).
      * destruct (text r); eexists; (split; [reflexivity|]);
          (split; [cbn; eauto | apply Hfoot]).
  - eexists. split; [reflexivity|]. split; [left; cbn; eauto | apply Hfoot].
Qed.

Lemma or_default_truthy (a : option string) (d : string) :
  d <> "" -> Js.or_default a d <> "".
Proof.
  intros Hd. unfold Js.or_default, Js.truthy.
  destruct a as [s|]; [|exact Hd].
  destruct (String.eqb_spec s ""); cbn [negb]; assumption.
Qed.

(** X5.  A non-success response whose body can be read always yields a
    non-empty [error], so a caller's [if (error)] test sees it; it never
    yields [data]. *)
Theorem non_success_error_is_truthy network endpoint (m : Method)
    (b : option (list (string * JSON))) token (w : World)
    url options (r : Response) (t : string) :
  fetch_calls (fst (apiCall network endpoint m b token w))
    = fetch_calls w ++ [(url, options)] ->
  network url options = Normal r ->
  ok r = false ->
  text r = Normal t ->
  exists msg,
    snd (apiCall network endpoint m b token w)
      = Normal {| data := None; error := Some msg |} /\
    Js.truthy (Some msg) = true.
Proof.
  intros Hcalls Hnet Hok Htext.
  rewrite (apiCall_answer network _ _ _ _ _ _ _ Hcalls), Hnet.
  unfold try_catch, normalize, bind, await, ret. rewrite Hok, Htext.
  cbn [negb snd]. eexists. split; [reflexivity|].
  apply truthy_Some, or_default_truthy. discriminate.
Qed.

Lemma non_success_error_is_truthy_witness :
  exists msg,
    snd (apiCall (answering (http_response 401 ∅ "" (Normal JNull)))
           "/api/entries/feed?page=0&size=10" GET None None browser)
      = Normal {| data := None; error := Some msg |} /\
    Js.truthy (Some msg) = true.
Proof.
  apply (non_success_error_is_truthy
           (answering (http_response 401 ∅ "" (Normal JNull)))
           "/api/entries/feed?page=0&size=10" GET None None browser
           "http://localhost:8080/api/entries/feed?page=0&size=10"
           {| method := GET;
              headers := {[ "Content-Type" := "application/json" ]};
              body := None |}
           (http_response 401 ∅ "" (Normal JNull)) "");
    reflexivity.
Defined.

(** ** The session store, continued *)

Lemma setStoredToken_run (t : string) (e : Z) (w : World) :
  setStoredToken t e w =
    (if window_defined w
     then with_localStorage
            (fun s => <[ "auth_expires" := Js.Z_toString e ]>
                        (<[ "auth_token" := t ]> s)) w
     else w, Normal tt).
Proof. js_unfold. destruct (window_defined w); reflexivity. Qed.

Lemma clearStoredToken_run (w : World) :
  clearStoredToken w =
    (if window_defined w
     then with_localStorage
            (fun s => delete "auth_expires" (delete "auth_token" s)) w
     else w, Normal tt).
Proof. js_unfold. destruct (window_defined w); reflexivity. Qed.

Lemma with_localStorage_ext (f g : gmap string string -> gmap string string)
    (w : World) :
  f (localStorage w) = g (localStorage w) ->
  with_localStorage f w = with_localStorage g w.
Proof. intros H. unfold with_localStorage. rewrite H. reflexivity. Qed.

(** X6.  A login over an existing session replaces it: storing [(t2, e2)]
    after [(t1, e1)] leaves the world exactly as storing [(t2, e2)]
    alone. *)
Theorem setStoredToken_overwrites (t1 t2 : string) (e1 e2 : Z) (w : World) :
  fst ((do _ <- setStoredToken t1 e1; setStoredToken t2 e2)%js w)
  = fst (setStoredToken t2 e2 w).
Proof.
  unfold bind. rewrite (setStoredToken_run t1 e1 w).
  rewrite !setStoredToken_run.
  destruct (window_defined w) eqn:Hw; [|rewrite Hw; reflexivity].
  cbn [window_defined with_localStorage fst]. rewrite Hw.
  unfold with_localStorage.
  cbn [window_defined localStorage NEXT_PUBLIC_API_BASE now fetch_calls fst].
  f_equal. apply map_eq. intros k.
  destruct (decide (k = "auth_expires")) as [->|Hk1];
    [rewrite !lookup_insert_eq; reflexivity|].
  destruct (decide (k = "auth_token")) as [->|Hk2];
    repeat first [ rewrite lookup_insert_eq
                 | rewrite lookup_insert_ne by congruence ];
    reflexivity.
Qed.

(** X7.  The session helpers own two keys only: whatever else is kept in
    [localStorage] (the ["current_username"] entry the author page reads,
    for one) survives [setStoredToken] and [clearStoredToken]. *)
Theorem session_store_touches_two_keys (k t : string) (e : Z) (w : World) :
  k <> "auth_token" -> k <> "auth_expires" ->
  localStorage (fst (setStoredToken t e w)) !! k = localStorage w !! k /\
  localStorage (fst (clearStoredToken w)) !! k = localStorage w !! k.
Proof.
  intros Hk1 Hk2. rewrite setStoredToken_run, clearStoredToken_run.
  destruct (window_defined w); cbn [fst localStorage with_localStorage];
    [|split; reflexivity].
  rewrite !lookup_insert_ne by congruence.
  rewrite !lookup_delete_ne by congruence. split; reflexivity.
Qed.

Lemma session_store_touches_two_keys_witness :
  "current_username" <> "auth_token" /\ "current_username" <> "auth_expires" /\
  localStorage (fst (clearStoredToken
                       (with_localStorage
                          (insert "current_username" "alice") browser)))
    !! "current_username" = Some "alice".
Proof.
  split; [discriminate|]. split; [discriminate|].
  rewrite (proj2 (session_store_touches_two_keys "current_username" "" 0
                    (with_localStorage (insert "current_username" "alice")
                       browser)
                    ltac:(discriminate) ltac:(discriminate))).
  reflexivity.
Defined.

(** X8.  Logging in and out again is a round trip on the store: when no
    session is stored, [setStoredToken] followed by [clearStoredToken]
    gives the world back unchanged. *)
Theorem set_then_clear_restores (t : string) (e : Z) (w : World) :
  localStorage w !! "auth_token" = None ->
  localStorage w !! "auth_expires" = None ->
  fst ((do _ <- setStoredToken t e; clearStoredToken)%js w) = w.
Proof.
  intros Ht He. unfold bind. rewrite setStoredToken_run.
  destruct (window_defined w) eqn:Hw.
  - rewrite clearStoredToken_run. cbn [window_defined with_localStorage fst].
    rewrite Hw. unfold with_localStorage.
    cbn [window_defined localStorage NEXT_PUBLIC_API_BASE now fetch_calls].
    destruct w as [wd ls base clock calls]. cbn in *. f_equal.
    apply map_eq. intros k.
    destruct (decide (k = "auth_expires")) as [->|Hk1];
      [rewrite lookup_delete_eq; symmetry; exact He|].
    rewrite lookup_delete_ne by congruence.
    destruct (decide (k = "auth_token")) as [->|Hk2];
      [rewrite lookup_delete_eq; symmetry; exact Ht|].
    rewrite lookup_delete_ne by congruence.
    rewrite !lookup_insert_ne by congruence. reflexivity.
  - rewrite clearStoredToken_run, Hw. reflexivity.
Qed.

Lemma set_then_clear_restores_witness :
  localStorage browser !! "auth_token" = None /\
  localStorage browser !! "auth_expires" = None /\
  fst ((do _ <- setStoredToken "tok-1" 1700000000000; clearStoredToken)%js
         browser) = browser.
Proof.
  split; [reflexivity|]. split; [reflexivity|].
  apply (set_then_clear_restores "tok-1" 1700000000000 browser); reflexivity.
Defined.

(** X9.  Without a [window] (server-side rendering) the session store
    degrades to "no session": reads return nothing, writes and clears are
    dropped, nothing throws. *)
Theorem session_store_degrades_without_window (t : string) (e : Z)
    (w : World) :
  window_defined w = false ->
  getStoredToken w = (w, Normal None) /\
  setStoredToken t e w = (w, Normal tt) /\
  clearStoredToken w = (w, Normal tt) /\
  snd ((do _ <- setStoredToken t e; getStoredToken)%js w) = Normal None.
Proof.
  intros Hw.
  destruct (session_store_without_window t e w Hw) as (Hget & Hset & Hclear).
  repeat split; try assumption.
  unfold bind. rewrite Hset, Hget. reflexivity.
Qed.

Lemma session_store_degrades_without_window_witness :
  window_defined server_side = false /\
  snd ((do _ <- setStoredToken "tok-1" 1700000000000; getStoredToken)%js
         server_side) = Normal None.
Proof.
  split; [reflexivity|].
  apply (session_store_degrades_without_window "tok-1" 1700000000000
           server_side).
  reflexivity.
Defined.

(** ** Logging out *)

(** X10.  In a browser [handleLogout] clears the store exactly as
    [clearStoredToken] does, marks the page unauthenticated and sends the
    router to [/login]; the next request built without an explicit token
    carries no [Authorization] header. *)
Theorem handleLogout_clears_session (page : HomePage.State) (w : World) :
  window_defined w = true ->
  exists w',
    HomePage.handleLogout page w
      = (w', Normal {| HomePage.isAuthenticated := false;
                       HomePage.pushed := HomePage.pushed page ++ ["/login"] |}) /\
    w' = fst (clearStoredToken w) /\
    snd (getHeaders None w')
      = Normal {[ "Content-Type" := "application/json" ]}.
Proof.
  intros Hw. eexists. split; [reflexivity|]. split.
  - rewrite clearStoredToken_run, Hw. reflexivity.
  - rewrite getHeaders_run.
    replace (stored_token _) with (@None string); [reflexivity|].
    unfold stored_token. cbn [window_defined localStorage with_localStorage].
    rewrite Hw. rewrite lookup_delete_ne by discriminate.
    rewrite lookup_delete_eq. reflexivity.
Qed.

Lemma handleLogout_clears_session_witness :
  window_defined (fst (setStoredToken "tok-1" 1700000000000 browser)) = true /\
  exists w',
    fst (HomePage.handleLogout
           {| HomePage.isAuthenticated := true; HomePage.pushed := [] |}
           (fst (setStoredToken "tok-1" 1700000000000 browser))) = w' /\
    snd (getHeaders None w')
      = Normal {[ "Content-Type" := "application/json" ]}.
Proof.
  split; [reflexivity|].
  destruct (handleLogout_clears_session
              {| HomePage.isAuthenticated := true; HomePage.pushed := [] |}
              (fst (setStoredToken "tok-1" 1700000000000 browser))
              eq_refl) as (w' & Hrun & _ & Hheaders).
  exists w'. split; [rewrite Hrun; reflexivity | exact Hheaders].
Defined.

(** * The write page *)

(** ** [trim] and [split] *)

Module JsStringFacts.
Import JsString.

Lemma trimStart_chars_head (l : list ascii) c rest :
  trimStart_chars l = c :: rest -> is_space c = false.
Proof.
  induction l as [|a l IH]; [discriminate|]. cbn [trimStart_chars].
  destruct (is_space a) eqn:Ha; [exact IH|]. intros [= <- _]. exact Ha.
Qed.

Lemma trimStart_chars_suffix (l : list ascii) :
  exists pre, l = pre ++ trimStart_chars l.
Proof.
  induction l as [|a l [pre IH]]; [exists []; reflexivity|].
  cbn [trimStart_chars]. destruct (is_space a).
  - exists (a :: pre). cbn [app]. congruence.
  - exists []. reflexivity.
Qed.

Lemma trimEnd_chars_prefix (l : list ascii) :
  exists suf, l = trimEnd_chars l ++ suf.
Proof.
  induction l as [|a l [suf IH]]; [exists []; reflexivity|].
  cbn [trimEnd_chars]. destruct (trimEnd_chars l) as [|k kept].
  - destruct (is_space a).
    + exists (a :: l). reflexivity.
    + exists suf. cbn [app] in *. congruence.
  - exists suf. cbn [app] in *. congruence.
Qed.

Lemma last_cons {A : Type} (x : A) (l : list A) (d : A) :
  List.last (x :: l) d = List.last l x.
Proof.
  revert x d. induction l as [|y l IH]; intros x d; [reflexivity|].
  change (List.last (x :: y :: l) d) with (List.last (y :: l) d).
  rewrite (IH y d). symmetry. apply (IH y x).
Qed.

Lemma trimEnd_chars_last (l : list ascii) c rest :
  trimEnd_chars l = c :: rest -> is_space (List.last rest c) = false.
Proof.
  revert c rest. induction l as [|a l IH]; intros c rest; [discriminate|].
  cbn [trimEnd_chars]. destruct (trimEnd_chars l) as [|k kept].
  - destruct (is_space a) eqn:Ha; [discriminate|].
    intros [= <- <-]. exact Ha.
  - intros [= <- <-]. rewrite last_cons. apply (IH k kept eq_refl).
Qed.

Lemma last_app_cons {A : Type} (pre : list A) (x : A) (l : list A) (d : A) :
  List.last (pre ++ x :: l) d = List.last l x.
Proof.
  revert d. induction pre as [|p pre IH]; intros d; cbn [app].
  - apply last_cons.
  - rewrite last_cons. apply IH.
Qed.

Lemma trimEnd_chars_fixed (c : ascii) (rest : list ascii) :
  is_space (List.last rest c) = false ->
  trimEnd_chars (c :: rest) = c :: rest.
Proof.
  revert c. induction rest as [|a rest IH]; intros c Hlast.
  - cbn in *. rewrite Hlast. reflexivity.
  - change (trimEnd_chars (c :: a :: rest))
      with (match trimEnd_chars (a :: rest) with
            | [] => if is_space c then [] else [c]
            | kept => c :: kept
            end).
    rewrite (IH a); [reflexivity|].
    rewrite last_cons in Hlast. exact Hlast.
Qed.

Lemma split_chars_not_nil (sep : ascii) (l : list ascii) :
  split_chars sep l <> [].
Proof.
  induction l as [|c l IH]; [discriminate|]. cbn [split_chars].
  destruct (Ascii.eqb c sep); [discriminate|].
  destruct (split_chars sep l); discriminate.
Qed.

Lemma split_chars_no_sep (sep : ascii) (l piece : list ascii) :
  In piece (split_chars sep l) -> ~ In sep piece.
Proof.
  revert piece. induction l as [|c l IH]; intros piece.
  - intros [<-|[]] [].
  - cbn [split_chars]. destruct (Ascii.eqb_spec c sep) as [->|Hne].
    + intros [<-|Hin]; [intros []|apply IH, Hin].
    + destruct (split_chars sep l) as [|p ps] eqn:E.
      * intros [<-|[]] [H|[]]. congruence.
      * intros [<-|Hin].
        -- intros [H|H]; [congruence|]. apply (IH p); [left; reflexivity|exact H].
        -- apply IH. right. exact Hin.
Qed.

Lemma split_chars_single (sep : ascii) (p : list ascii) :
  ~ In sep p -> split_chars sep p = [p].
Proof.
  induction p as [|c p IH]; intros Hp; [reflexivity|].
  cbn [split_chars]. destruct (Ascii.eqb_spec c sep) as [->|Hne].
  - exfalso. apply Hp. left. reflexivity.
  - rewrite IH; [reflexivity|]. intros H. apply Hp. right. exact H.
Qed.

Lemma split_chars_app (sep : ascii) (p rest : list ascii) :
  ~ In sep p ->
  split_chars sep (p ++ sep :: rest) = p :: split_chars sep rest.
Proof.
  induction p as [|c p IH]; intros Hp.
  - cbn [app split_chars]. rewrite Ascii.eqb_refl. reflexivity.
  - cbn [app split_chars]. destruct (Ascii.eqb_spec c sep) as [->|Hne].
    + exfalso. apply Hp. left. reflexivity.
    + rewrite IH; [reflexivity|]. intros H. apply Hp. right. exact H.
Qed.

Lemma list_ascii_of_string_app (a b : string) :
  list_ascii_of_string (a +:+ b)
  = list_ascii_of_string a ++ list_ascii_of_string b.
Proof.
  induction a as [|c a IH]; [reflexivity|].
  rewrite append_cons. cbn [list_ascii_of_string app]. rewrite IH. reflexivity.
Qed.

End JsStringFacts.

(** ** Tags *)

Lemma clean_tag_chars (t : string) :
  WritePage.clean_tag t = true ->
  exists c rest,
    list_ascii_of_string t = c :: rest /\
    JsString.is_space c = false /\
    JsString.is_space (List.last rest c) = false /\
    ~ In ","%char (c :: rest).
Proof.
  unfold WritePage.clean_tag.
  destruct (list_ascii_of_string t) as [|c rest]; [discriminate|].
  intros H. apply andb_true_iff in H as [H Hcomma].
  apply andb_true_iff in H as [Hhead Hlast].
  exists c, rest. split; [reflexivity|].
  split; [apply negb_true_iff, Hhead|]. split; [apply negb_true_iff, Hlast|].
  intros Hin. rewrite forallb_forall in Hcomma. specialize (Hcomma _ Hin).
  rewrite Ascii.eqb_refl in Hcomma. discriminate.
Qed.

Lemma trim_clean (piece : list ascii) :
  ~ In ","%char piece ->
  JsString.nonempty (JsString.trim (string_of_list_ascii piece)) = true ->
  WritePage.clean_tag (JsString.trim (string_of_list_ascii piece)) = true.
Proof.
  intros Hcomma Hne. unfold JsString.trim, WritePage.clean_tag in *.
  rewrite !list_ascii_of_string_of_list_ascii.
  rewrite list_ascii_of_string_of_list_ascii in Hne.
  destruct (JsStringFacts.trimEnd_chars_prefix piece) as [suf Hsuf].
  destruct (JsStringFacts.trimStart_chars_suffix (JsString.trimEnd_chars piece))
    as [pre Hpre].
  destruct (JsString.trimStart_chars (JsString.trimEnd_chars piece))
    as [|c rest] eqn:E; [discriminate|].
  rewrite (JsStringFacts.trimStart_chars_head _ _ _ E). cbn [negb andb].
  assert (Hlast : JsString.is_space (List.last rest c) = false).
  { destruct (JsString.trimEnd_chars piece) as [|k kept] eqn:Ek;
      [destruct pre; discriminate|].
    pose proof (JsStringFacts.trimEnd_chars_last piece k kept Ek) as Hk.
    destruct pre as [|p pre]; cbn [app] in Hpre.
    - injection Hpre as -> ->. exact Hk.
    - injection Hpre as -> ->.
      rewrite JsStringFacts.last_app_cons in Hk. exact Hk. }
  rewrite Hlast. cbn [negb andb]. apply forallb_forall. intros x Hx.
  apply negb_true_iff. destruct (Ascii.eqb_spec x ","%char) as [->|]; [|reflexivity].
  exfalso. apply Hcomma. rewrite Hsuf, Hpre.
  apply in_or_app. left. apply in_or_app. right. exact Hx.
Qed.

(** X11.  Whatever is typed in the tags field, every tag handed to
    [createEntry] is clean: not empty, free of commas, with no white space
    at either end. *)
Theorem tagList_tags_are_clean (tags : string) :
  Forall (fun t => WritePage.clean_tag t = true) (WritePage.tagList tags).
Proof.
  unfold WritePage.tagList, JsString.split.
  apply List.Forall_forall. intros t Ht.
  apply List.filter_In in Ht as [Ht Hne].
  apply List.in_map_iff in Ht as (p & <- & Hp).
  apply List.in_map_iff in Hp as (piece & <- & Hpiece).
  apply trim_clean; [|exact Hne].
  apply (JsStringFacts.split_chars_no_sep _ _ _ Hpiece).
Qed.

Lemma trim_of_clean (t : string) :
  WritePage.clean_tag t = true -> JsString.trim t = t.
Proof.
  intros H. destruct (clean_tag_chars t H) as (c & rest & Hl & Hc & Hlast & _).
  unfold JsString.trim. rewrite Hl.
  rewrite (JsStringFacts.trimEnd_chars_fixed c rest Hlast).
  cbn [JsString.trimStart_chars]. rewrite Hc, <- Hl.
  apply string_of_list_ascii_of_string.
Qed.

Lemma nonempty_of_clean (t : string) :
  WritePage.clean_tag t = true -> JsString.nonempty t = true.
Proof.
  intros H. destruct (clean_tag_chars t H) as (c & rest & Hl & _).
  destruct t; [discriminate|reflexivity].
Qed.

Lemma split_join_clean (ts : list string) :
  ts <> [] ->
  Forall (fun t => WritePage.clean_tag t = true) ts ->
  JsString.split ","%char (JsString.join ","%char ts) = ts.
Proof.
  unfold JsString.split. induction ts as [|t ts IH]; [congruence|].
  intros _ Hall. inversion Hall as [|? ? Ht Hts]; subst.
  destruct (clean_tag_chars t Ht) as (c & rest & Hl & _ & _ & Hcomma).
  destruct ts as [|u ts].
  - cbn [JsString.join]. rewrite Hl.
    rewrite (JsStringFacts.split_chars_single _ _ Hcomma). cbn [map].
    rewrite <- Hl, string_of_list_ascii_of_string. reflexivity.
  - change (JsString.join "," (t :: u :: ts))
      with (t +:+ String "," (JsString.join "," (u :: ts))).
    rewrite JsStringFacts.list_ascii_of_string_app.
    cbn [list_ascii_of_string]. rewrite Hl.
    rewrite (JsStringFacts.split_chars_app _ _ _ Hcomma). cbn [map].
    rewrite <- Hl, string_of_list_ascii_of_string. f_equal.
    apply IH; [discriminate | exact Hts].
Qed.

(** X12.  Clean tags survive the field: typing clean tags separated by
    commas gives back exactly those tags, in order; an empty field gives no
    tag. *)
Theorem tagList_round_trip (ts : list string) :
  Forall (fun t => WritePage.clean_tag t = true) ts ->
  WritePage.tagList (JsString.join ","%char ts) = ts.
Proof.
  intros Hall. unfold WritePage.tagList.
  destruct ts as [|t ts]; [reflexivity|].
  rewrite (split_join_clean (t :: ts)) by (discriminate || exact Hall).
  induction Hall as [|x xs Hx Hxs IH]; [reflexivity|].
  cbn [map List.filter]. rewrite (trim_of_clean x Hx), (nonempty_of_clean x Hx).
  f_equal. exact IH.
Qed.

Lemma tagList_round_trip_witness :
  Forall (fun t => WritePage.clean_tag t = true) ["rocq"; "daily notes"] /\
  WritePage.tagList "rocq,daily notes" = ["rocq"; "daily notes"].
Proof.
  assert (H : Forall (fun t => WritePage.clean_tag t = true)
                ["rocq"; "daily notes"])
    by (repeat constructor).
  split; [exact H|]. exact (tagList_round_trip ["rocq"; "daily notes"] H).
Defined.

Example tagList_sample :
  WritePage.tagList "  rocq , ,daily notes,, " = ["rocq"; "daily notes"].
Proof. reflexivity. Qed.

(** ** Images *)

Lemma filter_indexed_remove {A : Type} (k start : nat) (l : list A) :
  filter_indexed (fun i _ => negb (Nat.eqb i (start + k))) start l
  = take k l ++ drop (S k) l.
Proof.
  revert k start. induction l as [|x l IH]; intros k start.
  - destruct k; reflexivity.
  - cbn [filter_indexed]. destruct k as [|k].
    + rewrite Nat.add_0_r, Nat.eqb_refl. cbn [negb take drop app].
      clear IH. revert start.
      assert (H : forall s n, s < n ->
                filter_indexed (fun i (_ : A) => negb (Nat.eqb i s)) n l = l).
      { induction l as [|y l IHl]; intros s n Hs; [reflexivity|].
        cbn [filter_indexed].
        destruct (Nat.eqb_spec n s) as [->|_]; [lia|].
        cbn [negb]. f_equal. apply IHl. lia. }
      intros start. apply H. lia.
    + destruct (Nat.eqb_spec start (start + S k)) as [Heq|_]; [lia|].
      cbn [negb take drop app]. f_equal.
      replace (start + S k) with (S start + k) by lia. apply IH.
Qed.

(** X13.  [removeImage index] drops the image at [index] and nothing else,
    keeping the order of the others; an index past the end changes
    nothing.  No other part of the page state moves. *)
Theorem removeImage_removes_one (index : nat) (page : WritePage.State) :
  let images := WritePage.uploadedImages page in
  WritePage.uploadedImages (WritePage.removeImage index page)
    = take index images ++ drop (S index) images /\
  (index < length images ->
   length (WritePage.uploadedImages (WritePage.removeImage index page))
     = length images - 1) /\
  (length images <= index ->
   WritePage.removeImage index page = page).
Proof.
  cbv zeta. unfold WritePage.removeImage.
  cbn [WritePage.uploadedImages WritePage.set_uploadedImages].
  rewrite (filter_indexed_remove index 0). split; [reflexivity|]. split.
  - intros Hlt. rewrite length_app, length_take, length_drop. lia.
  - intros Hge. rewrite take_ge, drop_ge by lia. rewrite app_nil_r.
    destruct page; reflexivity.
Qed.

Lemma removeImage_removes_one_witness :
  let page :=
    {| WritePage.title := "t"; WritePage.content := "c";
       WritePage.tags := ""; WritePage.visibility := PUBLIC;
       WritePage.uploadedImages := ["a.png"; "b.png"; "c.png"];
       WritePage.loading := false; WritePage.shown_error := "";
       WritePage.pushed := []; WritePage.console_errors := [] |} in
  1 < length (WritePage.uploadedImages page) /\
  length (WritePage.uploadedImages (WritePage.removeImage 1 page)) = 2 /\
  length (WritePage.uploadedImages page) <= 7 /\
  WritePage.removeImage 7 page = page.
Proof.
  cbv zeta.
  pose proof (removeImage_removes_one 1
    {| WritePage.title := "t"; WritePage.content := "c";
       WritePage.tags := ""; WritePage.visibility := PUBLIC;
       WritePage.uploadedImages := ["a.png"; "b.png"; "c.png"];
       WritePage.loading := false; WritePage.shown_error := "";
       WritePage.pushed := []; WritePage.console_errors := [] |}) as H1.
  pose proof (removeImage_removes_one 7
    {| WritePage.title := "t"; WritePage.content := "c";
       WritePage.tags := ""; WritePage.visibility := PUBLIC;
       WritePage.uploadedImages := ["a.png"; "b.png"; "c.png"];
       WritePage.loading := false; WritePage.shown_error := "";
       WritePage.pushed := []; WritePage.console_errors := [] |}) as H7.
  cbv zeta in H1, H7. destruct H1 as (_ & Hlt & _). destruct H7 as (_ & _ & Hge).
  assert (L1 : 1 < 3) by lia. assert (L7 : 3 <= 7) by lia.
  split; [exact L1|]. split; [exact (Hlt L1)|]. split; [exact L7|].
  exact (Hge L7).
Defined.

(** ** Publishing *)

(** X14.  [handlePublish] sends nothing unless a token is stored and both
    title and content have something besides white space: without a token
    it only pushes [/login]; with a blank title or content it only shows
    "Title and content are required".  The world is left as it was. *)
Theorem handlePublish_guards network (page : WritePage.State) (w : World) :
  (Js.truthy (stored_token w) = false ->
   WritePage.handlePublish network page w
     = (w, Normal (WritePage.router_push "/login" page))) /\
  (Js.truthy (stored_token w) = true ->
   JsString.trim (WritePage.title page) = ""
   \/ JsString.trim (WritePage.content page) = "" ->
   WritePage.handlePublish network page w
     = (w, Normal (WritePage.set_error "Title and content are required" page))).
Proof.
  unfold WritePage.handlePublish, bind. rewrite getStoredToken_run. split.
  - intros ->. reflexivity.
  - intros -> Hblank. cbn [negb].
    replace (negb (JsString.nonempty (JsString.trim (WritePage.title page)))
             || negb (JsString.nonempty (JsString.trim (WritePage.content page))))
      with true; [reflexivity|].
    symmetry. apply orb_true_iff. unfold JsString.nonempty.
    destruct Hblank as [-> | ->]; [left | right]; reflexivity.
Qed.

Lemma handlePublish_guards_witness :
  let draft :=
    {| WritePage.title := "   "; WritePage.content := "text";
       WritePage.tags := "a,b"; WritePage.visibility := PUBLIC;
       WritePage.uploadedImages := []; WritePage.loading := false;
       WritePage.shown_error := ""; WritePage.pushed := [];
       WritePage.console_errors := [] |} in
  let logged_in := fst (setStoredToken "tok-1" 1700000000000 browser) in
  (Js.truthy (stored_token browser) = false /\
   WritePage.handlePublish (offline "network down") draft browser
     = (browser, Normal (WritePage.router_push "/login" draft))) /\
  (Js.truthy (stored_token logged_in) = true /\
   JsString.trim (WritePage.title draft) = "" /\
   WritePage.handlePublish (offline "network down") draft logged_in
     = (logged_in,
        Normal (WritePage.set_error "Title and content are required" draft))).
Proof.
  cbv zeta. split.
  - split; [reflexivity|].
    apply (proj1 (handlePublish_guards (offline "network down") _ browser)).
    reflexivity.
  - split; [reflexivity|]. split; [reflexivity|].
    apply (proj2 (handlePublish_guards (offline "network down") _ _));
      [reflexivity | left; reflexivity].
Defined.

(** X15.  With a token stored and a title and content that are not blank,
    [handlePublish] sends exactly one POST to [/api/entries] whose payload
    reads back as the title and content as typed (untrimmed), the cleaned
    tag list, the visibility and the uploaded image URLs.  It ends with
    [loading] off, and either pushes [/feed] with no error shown or stays
    on the page showing a non-empty error. *)
Theorem handlePublish_publishes network (page : WritePage.State) (w : World) :
  Js.truthy (stored_token w) = true ->
  JsString.trim (WritePage.title page) <> "" ->
  JsString.trim (WritePage.content page) <> "" ->
  exists options page',
    WritePage.handlePublish network page w
      = (with_fetch_call (API_BASE w +:+ "/api/entries", options) w,
         Normal page') /\
    method options = POST /\
    (exists payload,
       body options = Some payload /\
       JSON_parse payload
         = Some (JObject
                   [("title", JString (WritePage.title page));
                    ("content", JString (WritePage.content page));
                    ("tags",
                     JArray (map JString
                               (WritePage.tagList (WritePage.tags page))));
                    ("visibility",
                     JString (Visibility_string (WritePage.visibility page)));
                    ("imageUrls",
                     JArray (map JString (WritePage.uploadedImages page)))])) /\
    WritePage.loading page' = false /\
    ((WritePage.pushed page' = WritePage.pushed page ++ ["/feed"] /\
      WritePage.shown_error page' = "") \/
     (WritePage.pushed page' = WritePage.pushed page /\
      WritePage.shown_error page' <> "")).
Proof.
  intros Htoken Htitle Hcontent.
  unfold WritePage.handlePublish, bind at 1. rewrite getStoredToken_run, Htoken.
  cbn [negb].
  assert (Hnb : forall s, s <> "" -> JsString.nonempty s = true).
  { intros s Hs. unfold JsString.nonempty.
    destruct (String.eqb_spec s ""); [contradiction|reflexivity]. }
  rewrite (Hnb _ Htitle), (Hnb _ Hcontent). cbn [negb orb].
  unfold bind at 1, try_catch, bind at 1, createEntry.
  cbn [WritePage.title WritePage.content WritePage.tags WritePage.visibility
       WritePage.uploadedImages WritePage.set_loading WritePage.set_error
       defaulting].
  match goal with
  | |- context [apiCall network ?e ?m ?b None w] =>
      destruct (apiCall_shape network e m b w)
        as (options & res & Hrun & _ & Hm & Hb); rewrite Hrun
  end.
  exists options.
  destruct (Js.truthy (error res)) eqn:Herr; eexists;
    (split; [reflexivity|]); (split; [exact Hm|]);
    (split; [eexists; split; [exact Hb | apply RoundTrip.parse_stringify]|]);
    (split; [reflexivity|]).
  - right. split; [reflexivity|].
    cbn [WritePage.shown_error WritePage.set_loading WritePage.set_error].
    destruct (error res) as [msg|]; [|discriminate Herr].
    unfold Js.or_default. rewrite Herr. unfold Js.truthy in Herr.
    intros ->. discriminate Herr.
  - left. split; reflexivity.
Qed.

Lemma handlePublish_publishes_witness :
  let draft :=
    {| WritePage.title := " Hello "; WritePage.content := "text";
       WritePage.tags := "a, b,"; WritePage.visibility := FOLLOWERS_ONLY;
       WritePage.uploadedImages := ["https://img/1.png"];
       WritePage.loading := false; WritePage.shown_error := "";
       WritePage.pushed := []; WritePage.console_errors := [] |} in
  let logged_in := fst (setStoredToken "tok-1" 1700000000000 browser) in
  Js.truthy (stored_token logged_in) = true /\
  JsString.trim (WritePage.title draft) <> "" /\
  JsString.trim (WritePage.content draft) <> "" /\
  exists options page',
    WritePage.handlePublish (offline "network down") draft logged_in
      = (with_fetch_call (API_BASE logged_in +:+ "/api/entries", options)
           logged_in, Normal page') /\
    method options = POST /\
    WritePage.loading page' = false.
Proof.
  cbv zeta. split; [reflexivity|]. split; [discriminate|]. split; [discriminate|].
  destruct (handlePublish_publishes (offline "network down")
    {| WritePage.title := " Hello "; WritePage.content := "text";
       WritePage.tags := "a, b,"; WritePage.visibility := FOLLOWERS_ONLY;
       WritePage.uploadedImages := ["https://img/1.png"];
       WritePage.loading := false; WritePage.shown_error := "";
       WritePage.pushed := []; WritePage.console_errors := [] |}
    (fst (setStoredToken "tok-1" 1700000000000 browser))
    eq_refl ltac:(discriminate) ltac:(discriminate))
    as (options & page' & Hrun & Hm & _ & Hl & _).
  exists options, page'. split; [exact Hrun|]. split; [exact Hm | exact Hl].
Defined.

(** * The list pages *)

(** A handler that awaits a wrapper and ignores what it returns: the
    request goes out, the [catch] clause is never entered, and the state
    update after the [await] always happens. *)
Lemma await_and_ignore network {A : Type} endpoint (m : Method)
    (b : option (list (string * JSON))) (next : A) (h : Thrown -> JS A)
    (w : World) :
  exists options,
    try_catch (do _ <- apiCall network endpoint m b None; ret next)%js h w
      = (with_fetch_call (API_BASE w +:+ endpoint, options) w, Normal next) /\
    method options = m /\
    body options = match b with
                   | Some fields => Some (JSON_stringify (JObject fields))
                   | None => None
                   end.
Proof.
  destruct (apiCall_shape network endpoint m b w)
    as (options & res & Hrun & _ & Hm & Hb).
  exists options. unfold try_catch, bind. rewrite Hrun.
  split; [reflexivity|]. split; assumption.
Qed.

Lemma without_spec (name u : string) (l : list string) :
  In u (without name l) <-> In u l /\ u <> name.
Proof.
  unfold without. rewrite List.filter_In, negb_true_iff.
  split; intros [Hin H]; (split; [exact Hin|]).
  - intros ->. rewrite String.eqb_refl in H. discriminate.
  - destruct (String.eqb_spec u name); [contradiction|reflexivity].
Qed.

(** ** Followers *)

(** X16.  [handleApprove] sends one POST to
    [/api/follow/approve/<username>] and then, whatever the outcome of that
    request, takes the user out of the pending list and appends it to the
    followers; it never logs an error. *)
Theorem handleApprove_moves_user network (username : string)
    (page : FollowersPage.State) (w : World) :
  exists options page',
    FollowersPage.handleApprove network username page w
      = (with_fetch_call
           (API_BASE w +:+ "/api/follow/approve/" +:+ username, options) w,
         Normal page') /\
    method options = POST /\ body options = Some "{}" /\
    (forall u, In u (FollowersPage.pending page') <->
               In u (FollowersPage.pending page) /\ u <> username) /\
    FollowersPage.followers page'
      = FollowersPage.followers page ++ [username] /\
    FollowersPage.following page' = FollowersPage.following page /\
    FollowersPage.console_errors page' = FollowersPage.console_errors page.
Proof.
  unfold FollowersPage.handleApprove, approveFollowRequest.
  match goal with
  | |- context [try_catch (bind _ (fun _ => ret ?next)) ?h w] =>
      destruct (await_and_ignore network
                  ("/api/follow/approve/" +:+ username) POST (Some [])
                  next h w) as (options & Hrun & Hm & Hb)
  end.
  eexists options, _. split; [exact Hrun|]. split; [exact Hm|].
  split; [exact Hb|]. cbn. split; [intros u; apply without_spec|].
  repeat split.
Qed.

(** X17.  [handleUnfollow] and [handleReject] each send one DELETE without
    a body and then, whatever its outcome, drop every occurrence of the
    user from the following list, respectively the pending list, leaving
    the other lists alone. *)
Theorem handleUnfollow_and_handleReject network (username : string)
    (page : FollowersPage.State) (w : World) :
  (exists options page',
     FollowersPage.handleUnfollow network username page w
       = (with_fetch_call
            (API_BASE w +:+ "/api/follow/" +:+ username, options) w,
          Normal page') /\
     method options = DELETE /\ body options = None /\
     (forall u, In u (FollowersPage.following page') <->
                In u (FollowersPage.following page) /\ u <> username) /\
     FollowersPage.followers page' = FollowersPage.followers page /\
     FollowersPage.pending page' = FollowersPage.pending page) /\
  (exists options page',
     FollowersPage.handleReject network username page w
       = (with_fetch_call
            (API_BASE w +:+ "/api/follow/reject/" +:+ username, options) w,
          Normal page') /\
     method options = DELETE /\ body options = None /\
     (forall u, In u (FollowersPage.pending page') <->
                In u (FollowersPage.pending page) /\ u <> username) /\
     FollowersPage.followers page' = FollowersPage.followers page /\
     FollowersPage.following page' = FollowersPage.following page).
Proof.
  split.
  - unfold FollowersPage.handleUnfollow, unfollow.
    match goal with
    | |- context [try_catch (bind _ (fun _ => ret ?next)) ?h w] =>
        destruct (await_and_ignore network ("/api/follow/" +:+ username)
                    DELETE None next h w) as (options & Hrun & Hm & Hb)
    end.
    eexists options, _. split; [exact Hrun|]. split; [exact Hm|].
    split; [exact Hb|]. cbn. split; [intros u; apply without_spec|].
    split; reflexivity.
  - unfold FollowersPage.handleReject, rejectFollowRequest.
    match goal with
    | |- context [try_catch (bind _ (fun _ => ret ?next)) ?h w] =>
        destruct (await_and_ignore network
                    ("/api/follow/reject/" +:+ username)
                    DELETE None next h w) as (options & Hrun & Hm & Hb)
    end.
    eexists options, _. split; [exact Hrun|]. split; [exact Hm|].
    split; [exact Hb|]. cbn. split; [intros u; apply without_spec|].
    split; reflexivity.
Qed.

(** ** Profile *)

(** X18.  On the profile page, removing a follower sends the very request
    that unfollowing sends, DELETE [/api/follow/<username>]: the two
    handlers leave the world in the same state and differ only in the list
    they filter afterwards (followers, respectively following) and in the
    busy marker they reset. *)
Theorem handleRemoveFollower_sends_unfollow network (username : string)
    (page : ProfilePage.State) (w : World) :
  exists options removed unfollowed,
    ProfilePage.handleRemoveFollower network username page w
      = (with_fetch_call
           (API_BASE w +:+ "/api/follow/" +:+ username, options) w,
         Normal removed) /\
    ProfilePage.handleUnfollow network username page w
      = (with_fetch_call
           (API_BASE w +:+ "/api/follow/" +:+ username, options) w,
         Normal unfollowed) /\
    method options = DELETE /\
    removed = ProfilePage.set_removingFollower None
                (ProfilePage.set_followers
                   (without username (ProfilePage.followers page)) page) /\
    unfollowed = ProfilePage.set_unfollowingUser None
                   (ProfilePage.set_following
                      (without username (ProfilePage.following page)) page).
Proof.
  unfold ProfilePage.handleRemoveFollower, ProfilePage.handleUnfollow, unfollow.
  unfold bind at 1. unfold bind at 2.
  match goal with
  | |- context [try_catch (bind _ (fun _ => ret ?next)) ?h w] =>
      destruct (await_and_ignore network ("/api/follow/" +:+ username)
                  DELETE None next h w) as (options & Hrun & Hm & _);
      rewrite Hrun
  end.
  match goal with
  | |- context [try_catch (bind _ (fun _ => ret ?next)) ?h w] =>
      destruct (await_and_ignore network ("/api/follow/" +:+ username)
                  DELETE None next h w) as (options' & Hrun' & _ & _);
      rewrite Hrun'
  end.
  assert (options' = options) as ->.
  { pose proof (f_equal (fun p => fetch_calls (fst p)) Hrun) as H1.
    pose proof (f_equal (fun p => fetch_calls (fst p)) Hrun') as H2.
    cbn [fst fetch_calls with_fetch_call] in H1, H2.
    destruct (apiCall_shape network ("/api/follow/" +:+ username) DELETE None w)
      as (o & res & Hshape & _).
    unfold try_catch, bind in H1, H2. rewrite Hshape in H1, H2.
    cbn [fst fetch_calls with_fetch_call] in H1, H2.
    apply app_inj_tail in H1 as [_ [= H1]].
    apply app_inj_tail in H2 as [_ [= H2]]. congruence. }
  exists options. eexists _, _. split; [reflexivity|]. split; [reflexivity|].
  split; [exact Hm|]. destruct page; split; reflexivity.
Qed.

(** X19.  With a profile loaded, [handleSaveProfile] sends one PUT to
    [/api/profile/me] carrying the edited bio and the preview picture (the
    current picture when the preview is empty); whatever the server
    answers, it then updates the local profile, announces "Profile updated
    successfully!" and switches [isSaving] off.  Without a profile it does
    nothing. *)
Theorem handleSaveProfile_reports_success network (page : ProfilePage.State)
    (w : World) :
  (ProfilePage.profile page = None ->
   ProfilePage.handleSaveProfile network page w = (w, Normal page)) /\
  (forall p, ProfilePage.profile page = Some p ->
   let picture :=
     if String.eqb (ProfilePage.photoPreview page) ""
     then UserProfile.profilePicture p else ProfilePage.photoPreview page in
   exists options page',
     ProfilePage.handleSaveProfile network page w
       = (with_fetch_call (API_BASE w +:+ "/api/profile/me", options) w,
          Normal page') /\
     method options = PUT /\
     (exists payload,
        body options = Some payload /\
        JSON_parse payload
          = Some (JObject [("bio", JString (ProfilePage.editBio page));
                           ("profilePicture", JString picture)])) /\
     ProfilePage.profile page'
       = Some {| UserProfile.username := UserProfile.username p;
                 UserProfile.email := UserProfile.email p;
                 UserProfile.bio := ProfilePage.editBio page;
                 UserProfile.profilePicture := picture |} /\
     ProfilePage.alerts page'
       = ProfilePage.alerts page ++ ["Profile updated successfully!"] /\
     ProfilePage.isSaving page' = false /\
     ProfilePage.console_errors page' = ProfilePage.console_errors page).
Proof.
  unfold ProfilePage.handleSaveProfile. split.
  - intros ->. reflexivity.
  - intros p ->. cbv zeta.
    replace (Js.or_default (Some (ProfilePage.photoPreview page))
               (UserProfile.profilePicture p))
      with (if String.eqb (ProfilePage.photoPreview page) ""
            then UserProfile.profilePicture p
            else ProfilePage.photoPreview page)
      by (unfold Js.or_default, Js.truthy;
          destruct (String.eqb (ProfilePage.photoPreview page) ""); reflexivity).
    unfold bind at 1, updateMyProfile.
    match goal with
    | |- context [try_catch (bind (apiCall network ?e ?m ?b None)
                               (fun _ => ret ?next)) ?h w] =>
        destruct (await_and_ignore network e m b next h w)
          as (options & Hrun & Hm & Hb); rewrite Hrun
    end.
    eexists options, _. split; [reflexivity|]. split; [exact Hm|].
    split; [eexists; split; [exact Hb | apply RoundTrip.parse_stringify]|].
    repeat split.
Qed.

Lemma handleSaveProfile_reports_success_witness :
  ProfilePage.profile sample_profile_page
    = Some {| UserProfile.username := "alice";
              UserProfile.email := "a@example.org";
              UserProfile.bio := "old";
              UserProfile.profilePicture := "old.png" |} /\
  exists page',
    snd (ProfilePage.handleSaveProfile
           (answering (http_response 500 ∅ "boom" (Normal JNull)))
           sample_profile_page browser) = Normal page' /\
    ProfilePage.alerts page' = ["Profile updated successfully!"] /\
    ProfilePage.profile page'
      = Some {| UserProfile.username := "alice";
                UserProfile.email := "a@example.org";
                UserProfile.bio := "new bio";
                UserProfile.profilePicture := "old.png" |}.
Proof.
  split; [reflexivity|].
  destruct (proj2 (handleSaveProfile_reports_success
                     (answering (http_response 500 ∅ "boom" (Normal JNull)))
                     sample_profile_page browser)
              {| UserProfile.username := "alice";
                 UserProfile.email := "a@example.org";
                 UserProfile.bio := "old";
                 UserProfile.profilePicture := "old.png" |} eq_refl)
    as (options & page' & Hrun & _ & _ & Hp & Ha & _).
  exists page'. rewrite Hrun. split; [reflexivity|]. split; [exact Ha|exact Hp].
Defined.

(** ** Notifications *)

(** X20.  [handleMarkAsRead] sends one POST to
    [/api/notifications/<id>/read] and then, whatever its outcome, marks as
    read the notifications carrying that id and no other, changing nothing
    else in any notification nor their order; the unread counter goes down
    by one but never below zero. *)
Theorem handleMarkAsRead_updates network (id : string)
    (page : NotificationsPage.State) (w : World) :
  exists options page',
    NotificationsPage.handleMarkAsRead network id page w
      = (with_fetch_call
           (API_BASE w +:+ "/api/notifications/" +:+ id +:+ "/read", options)
           w, Normal page') /\
    method options = POST /\
    Forall2
      (fun n n' =>
         Notification.mark_read n' = Notification.mark_read n /\
         Notification.read n'
           = Notification.read n || String.eqb (Notification.id n) id)
      (NotificationsPage.notifications page)
      (NotificationsPage.notifications page') /\
    (0 <= NotificationsPage.unreadCount page')%Z /\
    (0 < NotificationsPage.unreadCount page ->
     NotificationsPage.unreadCount page'
       = NotificationsPage.unreadCount page - 1)%Z /\
    NotificationsPage.console_errors page'
      = NotificationsPage.console_errors page.
Proof.
  unfold NotificationsPage.handleMarkAsRead, markNotificationAsRead.
  match goal with
  | |- context [try_catch (bind (apiCall network ?e ?m ?b None)
                             (fun _ => ret ?next)) ?h w] =>
      destruct (await_and_ignore network e m b next h w)
        as (options & Hrun & Hm & _)
  end.
  eexists options, _. split; [exact Hrun|]. clear Hrun. split; [exact Hm|].
  cbn [NotificationsPage.notifications NotificationsPage.unreadCount
       NotificationsPage.console_errors].
  split; [|split; [lia | split; [lia | reflexivity]]].
  induction (NotificationsPage.notifications page) as [|n l IH];
    cbn [map]; constructor; [|exact IH].
  destruct n as [nid rcpt actor ty msg rd created].
  cbn [Notification.id Notification.read].
  destruct (String.eqb nid id); cbn [Notification.mark_read Notification.read
    Notification.id Notification.recipientUsername Notification.actorUsername
    Notification.type Notification.message Notification.createdAt];
    split; try reflexivity.
  - rewrite orb_true_r. reflexivity.
  - rewrite orb_false_r. reflexivity.
Qed.

Lemma handleMarkAsRead_updates_witness :
  let note :=
    {| Notification.id := "n1"; Notification.recipientUsername := "alice";
       Notification.actorUsername := "bob";
       Notification.type := FOLLOW_REQUEST;
       Notification.message := "bob wants to follow you";
       Notification.read := false;
       Notification.createdAt := "2025-01-01T00:00:00Z" |} in
  let page :=
    {| NotificationsPage.notifications := [note];
       NotificationsPage.unreadCount := 1;
       NotificationsPage.console_errors := [] |} in
  (0 < NotificationsPage.unreadCount page)%Z /\
  exists page',
    snd (NotificationsPage.handleMarkAsRead (offline "network down") "n1"
           page browser) = Normal page' /\
    NotificationsPage.unreadCount page' = 0%Z.
Proof.
  cbv zeta. split; [reflexivity|].
  destruct (handleMarkAsRead_updates (offline "network down") "n1"
    {| NotificationsPage.notifications :=
         [{| Notification.id := "n1";
             Notification.recipientUsername := "alice";
             Notification.actorUsername := "bob";
             Notification.type := FOLLOW_REQUEST;
             Notification.message := "bob wants to follow you";
             Notification.read := false;
             Notification.createdAt := "2025-01-01T00:00:00Z" |}];
       NotificationsPage.unreadCount := 1;
       NotificationsPage.console_errors := [] |} browser)
    as (options & page' & Hrun & _ & _ & _ & Hdec & _).
  exists page'. rewrite Hrun. split; [reflexivity|].
  apply Hdec. reflexivity.
Defined.

(** X21.  [handleMarkAllAsRead] sends one POST to
    [/api/notifications/read-all] and then, whatever its outcome, marks
    every notification read (nothing else in them changes), sets the
    counter to zero, and doing it a second time changes the page no
    further. *)
Theorem handleMarkAllAsRead_updates network
    (page : NotificationsPage.State) (w : World) :
  exists options page',
    NotificationsPage.handleMarkAllAsRead network page w
      = (with_fetch_call
           (API_BASE w +:+ "/api/notifications/read-all", options) w,
         Normal page') /\
    method options = POST /\
    Forall2
      (fun n n' =>
         Notification.mark_read n' = Notification.mark_read n /\
         Notification.read n' = true)
      (NotificationsPage.notifications page)
      (NotificationsPage.notifications page') /\
    NotificationsPage.unreadCount page' = 0%Z /\
    forall w', snd (NotificationsPage.handleMarkAllAsRead network page' w')
               = Normal page'.
Proof.
  unfold NotificationsPage.handleMarkAllAsRead, markAllNotificationsAsRead.
  match goal with
  | |- context [try_catch (bind (apiCall network ?e ?m ?b None)
                             (fun _ => ret ?next)) ?h w] =>
      destruct (await_and_ignore network e m b next h w)
        as (options & Hrun & Hm & _)
  end.
  eexists options, _. split; [exact Hrun|]. clear Hrun. split; [exact Hm|].
  cbn [NotificationsPage.notifications NotificationsPage.unreadCount
       NotificationsPage.console_errors].
  split; [|split; [reflexivity|]].
  - induction (NotificationsPage.notifications page) as [|n l IH];
      cbn [map]; constructor; [|exact IH].
    destruct n; split; reflexivity.
  - intros w'.
    match goal with
    | |- context [try_catch (bind (apiCall network ?e ?m ?b None)
                               (fun _ => ret ?next)) ?h w'] =>
        destruct (await_and_ignore network e m b next h w')
          as (options' & Hrun' & _ & _)
    end.
    rewrite Hrun'. cbn [snd]. f_equal. f_equal.
    rewrite List.map_map. apply List.map_ext. intros n. destruct n; reflexivity.
Qed.

(** ** My posts *)

(** X22.  [handleDelete] does nothing at all when the confirmation is
    declined.  When it is accepted it sends one DELETE to
    [/api/entries/<id>] and then, whatever its outcome, drops from the list
    exactly the entries carrying that id; it raises no alert. *)
Theorem handleDelete_removes_entry network (id : string)
    (page : MyPostsPage.State) (w : World) :
  MyPostsPage.handleDelete network false id page w = (w, Normal page) /\
  exists options page',
    MyPostsPage.handleDelete network true id page w
      = (with_fetch_call (API_BASE w +:+ "/api/entries/" +:+ id, options) w,
         Normal page') /\
    method options = DELETE /\ body options = None /\
    (forall e, In e (MyPostsPage.entries page') <->
               In e (MyPostsPage.entries page) /\ Entry.id e <> id) /\
    MyPostsPage.alerts page' = MyPostsPage.alerts page.
Proof.
  split; [reflexivity|].
  unfold MyPostsPage.handleDelete, deleteEntry. cbn [negb].
  match goal with
  | |- context [try_catch (bind (apiCall network ?e ?m ?b None)
                             (fun _ => ret ?next)) ?h w] =>
      destruct (await_and_ignore network e m b next h w)
        as (options & Hrun & Hm & Hb)
  end.
  eexists options, _. split; [exact Hrun|]. split; [exact Hm|].
  split; [exact Hb|]. cbn [MyPostsPage.entries MyPostsPage.alerts].
  split; [|reflexivity].
  intros e. rewrite List.filter_In, negb_true_iff.
  split; intros [Hin H]; (split; [exact Hin|]).
  - intros Heq. rewrite Heq, String.eqb_refl in H. discriminate.
  - destruct (String.eqb_spec (Entry.id e) id); [contradiction|reflexivity].
Qed.

(** ** Author *)

(** X23.  [handleFollowToggle] sends nothing when no token is stored (it
    pushes [/login]), when the route has no user name, or when the page
    shows the reader's own profile (it alerts "You cannot follow
    yourself"); the follow state stays as it was. *)
Theorem handleFollowToggle_guards network (page : AuthorPage.State)
    (w : World) :
  (Js.truthy (stored_token w) = false ->
   exists page',
     AuthorPage.handleFollowToggle network page w = (w, Normal page') /\
     AuthorPage.pushed page' = AuthorPage.pushed page ++ ["/login"] /\
     AuthorPage.isFollowing page' = AuthorPage.isFollowing page) /\
  (Js.truthy (stored_token w) = true ->
   absent_or_empty (AuthorPage.username page) ->
   AuthorPage.handleFollowToggle network page w = (w, Normal page)) /\
  (forall name,
   Js.truthy (stored_token w) = true ->
   name <> "" ->
   AuthorPage.username page = Some name ->
   AuthorPage.currentUsername page = Some name ->
   exists page',
     AuthorPage.handleFollowToggle network page w = (w, Normal page') /\
     AuthorPage.alerts page'
       = AuthorPage.alerts page ++ ["You cannot follow yourself"] /\
     AuthorPage.isFollowing page' = AuthorPage.isFollowing page).
Proof.
  unfold AuthorPage.handleFollowToggle, bind. rewrite getStoredToken_run.
  split; [|split].
  - intros ->. eexists. split; [reflexivity|]. split; reflexivity.
  - intros -> [-> | ->]; reflexivity.
  - intros name -> Hname -> ->. cbn [negb].
    rewrite (truthy_Some name Hname), String.eqb_refl. cbn [negb andb].
    eexists. split; [reflexivity|]. split; reflexivity.
Qed.

Lemma handleFollowToggle_guards_witness :
  let page :=
    {| AuthorPage.username := Some "alice"; AuthorPage.isFollowing := false;
       AuthorPage.currentUsername := Some "alice";
       AuthorPage.shown_error := None; AuthorPage.pushed := [];
       AuthorPage.alerts := []; AuthorPage.console_errors := [] |} in
  let logged_in := fst (setStoredToken "tok-1" 1700000000000 browser) in
  (Js.truthy (stored_token browser) = false /\
   exists page',
     AuthorPage.handleFollowToggle (offline "network down") page browser
       = (browser, Normal page') /\
     AuthorPage.pushed page' = ["/login"]) /\
  (Js.truthy (stored_token logged_in) = true /\
   exists page',
     AuthorPage.handleFollowToggle (offline "network down") page logged_in
       = (logged_in, Normal page') /\
     AuthorPage.alerts page' = ["You cannot follow yourself"]).
Proof.
  cbv zeta. split.
  - split; [reflexivity|].
    destruct (proj1 (handleFollowToggle_guards (offline "network down")
      {| AuthorPage.username := Some "alice"; AuthorPage.isFollowing := false;
         AuthorPage.currentUsername := Some "alice";
         AuthorPage.shown_error := None; AuthorPage.pushed := [];
         AuthorPage.alerts := []; AuthorPage.console_errors := [] |}
      browser) eq_refl) as (page' & Hrun & Hp & _).
    exists page'. split; [exact Hrun | exact Hp].
  - split; [reflexivity|].
    destruct (proj2 (proj2 (handleFollowToggle_guards (offline "network down")
      {| AuthorPage.username := Some "alice"; AuthorPage.isFollowing := false;
         AuthorPage.currentUsername := Some "alice";
         AuthorPage.shown_error := None; AuthorPage.pushed := [];
         AuthorPage.alerts := []; AuthorPage.console_errors := [] |}
      (fst (setStoredToken "tok-1" 1700000000000 browser))))
      "alice" eq_refl ltac:(discriminate) eq_refl eq_refl)
      as (page' & Hrun & Ha & _).
    exists page'. split; [exact Hrun | exact Ha].
Defined.

(** X24.  For a logged-in reader on someone else's page,
    [handleFollowToggle] sends one request to [/api/follow/<name>], a POST
    with body [{}] when not following and a DELETE without body when
    following, and then flips [isFollowing] whatever the outcome; toggling
    twice brings the page state back. *)
Theorem handleFollowToggle_toggles network (name : string)
    (page : AuthorPage.State) (w : World) :
  Js.truthy (stored_token w) = true ->
  name <> "" ->
  AuthorPage.username page = Some name ->
  AuthorPage.currentUsername page <> Some name ->
  (exists options,
     AuthorPage.handleFollowToggle network page w
       = (with_fetch_call (API_BASE w +:+ "/api/follow/" +:+ name, options) w,
          Normal (AuthorPage.set_isFollowing
                    (negb (AuthorPage.isFollowing page)) page)) /\
     method options = (if AuthorPage.isFollowing page then DELETE else POST) /\
     body options = (if AuthorPage.isFollowing page then None else Some "{}")) /\
  snd ((do once <- AuthorPage.handleFollowToggle network page;
        AuthorPage.handleFollowToggle network once)%js w) = Normal page.
Proof.
  intros Htoken Hname Huser Hme.
  assert (Hstep : forall (p : AuthorPage.State) (w0 : World),
    Js.truthy (stored_token w0) = true ->
    AuthorPage.username p = Some name ->
    AuthorPage.currentUsername p <> Some name ->
    exists options,
      AuthorPage.handleFollowToggle network p w0
        = (with_fetch_call (API_BASE w0 +:+ "/api/follow/" +:+ name, options) w0,
           Normal (AuthorPage.set_isFollowing
                     (negb (AuthorPage.isFollowing p)) p)) /\
      method options = (if AuthorPage.isFollowing p then DELETE else POST) /\
      body options = (if AuthorPage.isFollowing p then None else Some "{}")).
  { intros p w0 Ht Hu Hc.
    unfold AuthorPage.handleFollowToggle, bind at 1.
    rewrite getStoredToken_run, Ht, Hu. cbn [negb].
    rewrite (truthy_Some name Hname). cbn [negb].
    replace (Js.truthy (AuthorPage.currentUsername p)
             && match AuthorPage.currentUsername p with
                | Some me => String.eqb me name
                | None => false
                end) with false.
    2:{ destruct (AuthorPage.currentUsername p) as [me|];
          [|rewrite andb_false_r; reflexivity].
        destruct (String.eqb_spec me name) as [->|_];
          [contradiction | rewrite andb_false_r; reflexivity]. }
    destruct (AuthorPage.isFollowing p); unfold unfollow, sendFollowRequest;
      match goal with
      | |- context [try_catch (bind (apiCall network ?e ?m ?b None)
                                 (fun _ => ret ?next)) ?h w0] =>
          destruct (await_and_ignore network e m b next h w0)
            as (options & Hrun & Hm & Hb)
      end;
      exists options; (split; [exact Hrun|]); split; assumption. }
  split; [apply Hstep; assumption|].
  destruct (Hstep page w Htoken Huser Hme) as (options & Hrun & _).
  unfold bind. rewrite Hrun.
  destruct (Hstep (AuthorPage.set_isFollowing
                     (negb (AuthorPage.isFollowing page)) page)
              (with_fetch_call
                 (API_BASE w +:+ "/api/follow/" +:+ name, options) w))
    as (options' & Hrun' & _); [exact Htoken | exact Huser | exact Hme |].
  rewrite Hrun'. cbn [snd]. f_equal.
  destruct page as [u f c s p a l]. cbn. rewrite negb_involutive. reflexivity.
Qed.

Lemma handleFollowToggle_toggles_witness :
  let page :=
    {| AuthorPage.username := Some "bob"; AuthorPage.isFollowing := false;
       AuthorPage.currentUsername := Some "alice";
       AuthorPage.shown_error := None; AuthorPage.pushed := [];
       AuthorPage.alerts := []; AuthorPage.console_errors := [] |} in
  let logged_in := fst (setStoredToken "tok-1" 1700000000000 browser) in
  Js.truthy (stored_token logged_in) = true /\ "bob" <> "" /\
  AuthorPage.username page = Some "bob" /\
  AuthorPage.currentUsername page <> Some "bob" /\
  snd ((do once <- AuthorPage.handleFollowToggle (offline "network down") page;
        AuthorPage.handleFollowToggle (offline "network down") once)%js
         logged_in) = Normal page.
Proof.
  cbv zeta. split; [reflexivity|]. split; [discriminate|].
  split; [reflexivity|]. split; [discriminate|].
  apply (handleFollowToggle_toggles (offline "network down") "bob");
    [reflexivity | discriminate | reflexivity | discriminate].
Defined.

(** * The login page *)

Lemma login_run network (u p : string) (w : World) :
  exists options res,
    login network u p w
      = (with_fetch_call (API_BASE w +:+ "/api/auth/login", options) w,
         Normal res) /\
    method options = POST.
Proof.
  unfold login.
  match goal with
  | |- context [apiCall network ?e ?m ?b None w] =>
      destruct (apiCall_shape network e m b w)
        as (options & res & Hrun & _ & Hm & _)
  end.
  exists options, res. split; assumption.
Qed.

(** On a string token and an integer expiry the untyped run of
    [setStoredToken] is the typed one. *)
Lemma setStoredToken_untyped_typed type_error (t : string) (e : Z)
    (w : World) :
  LoginPage.setStoredToken_untyped type_error
    (Some (JString t)) (Some (JNumber e)) w
  = setStoredToken t e w.
Proof.
  unfold LoginPage.setStoredToken_untyped. js_unfold.
  destruct (window_defined w); reflexivity.
Qed.

(** X25.  A login that comes back with an error, or without usable data,
    never touches the session store and never navigates: the page shows
    the error (or "Login failed" when there is none to show), which is
    never empty, and [loading] ends off. *)
Theorem handleSubmit_failure type_error network (page : LoginPage.State)
    (w : World) :
  exists call res,
    login network (LoginPage.username page) (LoginPage.password page) w
      = (with_fetch_call call w, Normal res) /\
    (Js.truthy (error res) = true \/ JsValue.truthy (data res) = false ->
     exists page',
       LoginPage.handleSubmit type_error network page w
         = (with_fetch_call call w, Normal page') /\
       localStorage (with_fetch_call call w) = localStorage w /\
       LoginPage.pushed page' = LoginPage.pushed page /\
       LoginPage.shown_error page' = Js.or_default (error res) "Login failed" /\
       LoginPage.shown_error page' <> "" /\
       LoginPage.loading page' = false).
Proof.
  destruct (login_run network (LoginPage.username page)
              (LoginPage.password page) w) as (options & res & Hrun & _).
  eexists _, res. split; [exact Hrun|]. intros Hfail.
  unfold LoginPage.handleSubmit, bind at 1, try_catch, bind at 1.
  cbn [LoginPage.username LoginPage.password LoginPage.set_loading
       LoginPage.set_error].
  rewrite Hrun.
  replace (Js.truthy (error res) || negb (JsValue.truthy (data res)))
    with true
    by (symmetry; apply orb_true_iff;
        destruct Hfail as [-> | ->]; [left | right]; reflexivity).
  eexists. split; [reflexivity|]. split; [reflexivity|].
  split; [reflexivity|]. split; [reflexivity|].
  split; [|reflexivity].
  cbn [LoginPage.shown_error LoginPage.set_loading LoginPage.set_error].
  apply or_default_truthy. discriminate.
Qed.

Lemma handleSubmit_failure_witness :
  let page :=
    {| LoginPage.username := "alice"; LoginPage.password := "wrong";
       LoginPage.shown_error := ""; LoginPage.loading := false;
       LoginPage.pushed := [] |} in
  let net := answering (http_response 401 ∅ "Bad credentials" (Normal JNull)) in
  exists w' page',
    LoginPage.handleSubmit (fun _ => "TypeError") net page browser
      = (w', Normal page') /\
    localStorage w' = localStorage browser /\
    LoginPage.pushed page' = [] /\
    LoginPage.shown_error page' = "Bad credentials".
Proof.
  cbv zeta.
  destruct (handleSubmit_failure (fun _ => "TypeError")
              (answering (http_response 401 ∅ "Bad credentials" (Normal JNull)))
              {| LoginPage.username := "alice"; LoginPage.password := "wrong";
                 LoginPage.shown_error := ""; LoginPage.loading := false;
                 LoginPage.pushed := [] |} browser)
    as (call & res & Hlogin & Hfail).
  assert (Hres : res = {| data := None; error := Some "Bad credentials" |}).
  { pose proof (f_equal snd Hlogin) as H. cbn [snd] in H.
    vm_compute in H. injection H as <-. reflexivity. }
  subst res.
  destruct (Hfail (or_introl eq_refl))
    as (page' & Hrun & Hstore & Hpushed & Herr & _).
  exists (with_fetch_call call browser), page'.
  split; [exact Hrun|]. split; [exact Hstore|]. split; [exact Hpushed|].
  exact Herr.
Defined.

(** X26.  A login that comes back with an object holding a string [token]
    and an integer [expiresAt] stores exactly that session (as
    [setStoredToken] would), pushes [/feed], shows no error and ends with
    [loading] off; in a browser, with a non-empty token, the next request
    carries [Authorization: Bearer <token>]. *)
Theorem handleSubmit_success type_error network (page : LoginPage.State)
    (w : World) :
  exists call res,
    login network (LoginPage.username page) (LoginPage.password page) w
      = (with_fetch_call call w, Normal res) /\
    forall fields (t : string) (e : Z),
      Js.truthy (error res) = false ->
      data res = Some (JObject fields) ->
      JsValue.own_property "token" fields = Some (JString t) ->
      JsValue.own_property "expiresAt" fields = Some (JNumber e) ->
      exists page',
        LoginPage.handleSubmit type_error network page w
          = (fst (setStoredToken t e (with_fetch_call call w)), Normal page') /\
        LoginPage.pushed page' = LoginPage.pushed page ++ ["/feed"] /\
        LoginPage.shown_error page' = "" /\
        LoginPage.loading page' = false /\
        (window_defined w = true -> t <> "" ->
         snd (getHeaders None (fst (setStoredToken t e (with_fetch_call call w))))
           = Normal (<[ "Authorization" := "Bearer " +:+ t ]>
                       {[ "Content-Type" := "application/json" ]})).
Proof.
  destruct (login_run network (LoginPage.username page)
              (LoginPage.password page) w) as (options & res & Hrun & _).
  eexists _, res. split; [exact Hrun|].
  intros fields t e Herr Hdata Htoken Hexp.
  unfold LoginPage.handleSubmit, bind at 1, try_catch, bind at 1.
  cbn [LoginPage.username LoginPage.password LoginPage.set_loading
       LoginPage.set_error].
  rewrite Hrun, Herr, Hdata. cbn [JsValue.truthy negb orb].
  unfold bind at 1, await at 1. cbn [JsValue.get]. rewrite Htoken.
  unfold bind at 1, await at 1. rewrite Hexp.
  unfold bind at 1. rewrite setStoredToken_untyped_typed.
  destruct (setStoredToken t e _) as [w2 [[]|x]] eqn:Hset.
  2:{ rewrite setStoredToken_run in Hset. discriminate. }
  eexists. split; [reflexivity|]. split; [reflexivity|].
  split; [reflexivity|]. split; [reflexivity|].
  intros Hw Ht. cbn [fst]. rewrite getHeaders_run.
  replace (stored_token w2) with (Some t).
  - unfold Js.or_else. cbn [Js.truthy]. fold (Js.truthy (Some t)).
    rewrite truthy_Some by exact Ht. reflexivity.
  - replace w2 with (fst (setStoredToken t e
      (with_fetch_call (API_BASE w +:+ "/api/auth/login", options) w)))
      by (rewrite Hset; reflexivity).
    symmetry. apply setStoredToken_stored. exact Hw.
Qed.

(** X27.  A login that comes back with usable data but no [expiresAt] (a
    plain-text answer, an object without the field) leaves a half-written
    session in a browser: [auth_token] is overwritten with the text of
    whatever [data.token] is (["undefined"] when it is missing too),
    [auth_expires] is not written, the page shows the engine's [TypeError]
    and does not navigate. *)
Theorem handleSubmit_half_written type_error network (page : LoginPage.State)
    (w : World) :
  exists call res,
    login network (LoginPage.username page) (LoginPage.password page) w
      = (with_fetch_call call w, Normal res) /\
    forall token (s : string),
      window_defined w = true ->
      Js.truthy (error res) = false ->
      JsValue.truthy (data res) = true ->
      JsValue.get type_error "token" (data res) = Normal token ->
      JsValue.get type_error "expiresAt" (data res) = Normal None ->
      JsValue.to_DOMString type_error token = Normal s ->
      exists page',
        LoginPage.handleSubmit type_error network page w
          = (with_localStorage (insert "auth_token" s) (with_fetch_call call w),
             Normal page') /\
        LoginPage.pushed page' = LoginPage.pushed page /\
        LoginPage.shown_error page' = type_error JsValue.NullishReceiver /\
        LoginPage.loading page' = false.
Proof.
  destruct (login_run network (LoginPage.username page)
              (LoginPage.password page) w) as (options & res & Hrun & _).
  eexists _, res. split; [exact Hrun|].
  intros token s Hw Herr Hdata Htoken Hexp Hconv.
  unfold LoginPage.handleSubmit, bind at 1, try_catch, bind at 1.
  cbn [LoginPage.username LoginPage.password LoginPage.set_loading
       LoginPage.set_error].
  rewrite Hrun, Herr, Hdata. cbn [negb orb].
  unfold bind at 1, await at 1. rewrite Htoken.
  unfold bind at 1, await at 1. rewrite Hexp.
  unfold bind at 1, LoginPage.setStoredToken_untyped, bind at 1,
    window_undefined, read.
  cbn [window_defined with_fetch_call]. rewrite Hw. cbn [negb].
  unfold bind at 1, await at 1. rewrite Hconv.
  unfold bind at 1, LocalStorage.setItem, modify.
  unfold bind at 1, await at 1. cbn [JsValue.toString_method].
  eexists. split; [reflexivity|]. repeat split.
Qed.

Lemma handleSubmit_success_witness :
  let page :=
    {| LoginPage.username := "alice"; LoginPage.password := "secret";
       LoginPage.shown_error := "old error"; LoginPage.loading := false;
       LoginPage.pushed := [] |} in
  let net :=
    answering
      (http_response 200 {[ "content-type" := "application/json" ]}
         (json_text "{'token':'tok-1','expiresAt':1700000000000}")
         (Normal JNull)) in
  exists w' page',
    LoginPage.handleSubmit (fun _ => "TypeError") net page browser
      = (w', Normal page') /\
    localStorage w' !! "auth_token" = Some "tok-1" /\
    localStorage w' !! "auth_expires" = Some "1700000000000" /\
    LoginPage.pushed page' = ["/feed"] /\
    LoginPage.shown_error page' = "".
Proof.
  cbv zeta.
  destruct (handleSubmit_success (fun _ => "TypeError")
              (answering
                 (http_response 200 {[ "content-type" := "application/json" ]}
                    (json_text "{'token':'tok-1','expiresAt':1700000000000}")
                    (Normal JNull)))
              {| LoginPage.username := "alice"; LoginPage.password := "secret";
                 LoginPage.shown_error := "old error";
                 LoginPage.loading := false; LoginPage.pushed := [] |} browser)
    as (call & res & Hlogin & Hok).
  assert (Hres : res = {| data := Some (JObject
                                          [("token", JString "tok-1");
                                           ("expiresAt", JNumber 1700000000000)]);
                          error := None |}).
  { pose proof (f_equal snd Hlogin) as H. cbn [snd] in H.
    vm_compute in H. injection H as <-. reflexivity. }
  subst res.
  destruct (Hok _ "tok-1" 1700000000000%Z eq_refl eq_refl eq_refl eq_refl)
    as (page' & Hrun & Hpushed & Herr & _).
  eexists _, page'. split; [exact Hrun|].
  rewrite setStoredToken_run. cbn [window_defined with_fetch_call browser fst
    localStorage with_localStorage].
  split; [reflexivity|]. split; [reflexivity|]. split; [exact Hpushed|].
  exact Herr.
Defined.

Lemma handleSubmit_half_written_witness :
  let page :=
    {| LoginPage.username := "alice"; LoginPage.password := "secret";
       LoginPage.shown_error := ""; LoginPage.loading := false;
       LoginPage.pushed := [] |} in
  let net :=
    answering
      (http_response 200 {[ "content-type" := "text/plain" ]} "OK"
         (Normal JNull)) in
  exists w' page',
    LoginPage.handleSubmit (fun _ => "TypeError") net page browser
      = (w', Normal page') /\
    localStorage w' !! "auth_token" = Some "undefined" /\
    localStorage w' !! "auth_expires" = None /\
    LoginPage.pushed page' = [] /\
    LoginPage.shown_error page' = "TypeError".
Proof.
  cbv zeta.
  destruct (handleSubmit_half_written (fun _ => "TypeError")
              (answering
                 (http_response 200 {[ "content-type" := "text/plain" ]} "OK"
                    (Normal JNull)))
              {| LoginPage.username := "alice"; LoginPage.password := "secret";
                 LoginPage.shown_error := ""; LoginPage.loading := false;
                 LoginPage.pushed := [] |} browser)
    as (call & res & Hlogin & Hhalf).
  assert (Hres : res = {| data := Some (JString "OK"); error := None |}).
  { pose proof (f_equal snd Hlogin) as H. cbn [snd] in H.
    vm_compute in H. injection H as <-. reflexivity. }
  subst res.
  destruct (Hhalf None "undefined" eq_refl eq_refl eq_refl eq_refl eq_refl
              eq_refl)
    as (page' & Hrun & Hpushed & Herr & _).
  eexists _, page'. split; [exact Hrun|].
  split; [reflexivity|]. split; [reflexivity|]. split; [exact Hpushed|].
  exact Herr.
Defined.
